(** * Network element monitor: device sessions, fleet backup, scheduler,
      broadcast and dashboard statistics

    A shallow embedding of the executable parts of the repository:

    - [backend/network_device.py]  (docs/NETWORK_MONITORING.md, step 2):
      class [NetworkDevice] with [connect], [disconnect], [execute_command],
      [execute_commands], and [create_device_connection];
    - [backend/scheduler.py]  (docs/MODIFICATION_GUIDE.md, section 7):
      [backup_all_devices] and [scheduler];
    - [ConnectionManager.broadcast]  (architecture guide, WebSocket part);
    - [frontend/src/components/Dashboard.tsx] and the refresh timer of
      [frontend/src/app/page.tsx].

    Python code runs in a small monad that threads the outside world
    (devices, database, sockets), may raise an exception, and records every
    observable effect (log entries, printed lines, transport and database
    calls) in a trace. *)

From Stdlib Require Import List String Bool Arith NArith QArith Lia.
Import ListNotations.

Set Implicit Arguments.
Close Scope Q_scope.
Open Scope string_scope.
Open Scope list_scope.

(** ** Python values used by the code *)

Module Py.

(** An exception is identified with [str(e)], the only thing the code
    ever reads from it. *)
Definition exn : Type := string.

Inductive result (A : Type) : Type :=
| Ok (a : A)
| Raise (e : exn).
Arguments Ok {A} a.
Arguments Raise {A} e.

(** A [dict] with [str] keys.  Python dictionaries keep insertion order,
    and assigning to a key that is already present replaces the value in
    place. *)
Definition dict (V : Type) := list (string * V).

Fixpoint dict_set {V} (d : dict V) (k : string) (v : V) : dict V :=
  match d with
  | [] => [(k, v)]
  | (k', v') :: d' =>
      if String.eqb k' k then (k', v) :: d' else (k', v') :: dict_set d' k v
  end.

Fixpoint dict_get {V} (d : dict V) (k : string) : option V :=
  match d with
  | [] => None
  | (k', v') :: d' => if String.eqb k' k then Some v' else dict_get d' k
  end.

Definition keys {V} (d : dict V) : list string := map fst d.

End Py.

Import Py.

(** ** The effect monad *)

Section Effects.

Variable W : Type.   (* state of the outside world *)
Variable E : Type.   (* observable events *)

Definition M (A : Type) : Type := W -> result A * W * list E.

Definition ret {A} (a : A) : M A := fun w => (Ok a, w, []).

Definition raise {A} (e : exn) : M A := fun w => (Raise e, w, []).

Definition bind {A B} (m : M A) (f : A -> M B) : M B :=
  fun w =>
    match m w with
    | (Ok a, w1, t1) =>
        match f a w1 with (r, w2, t2) => (r, w2, t1 ++ t2) end
    | (Raise e, w1, t1) => (Raise e, w1, t1)
    end.

(** [try: body except Exception as e: handler e] *)
Definition try_except {A} (body : M A) (handler : exn -> M A) : M A :=
  fun w =>
    match body w with
    | (Ok a, w1, t1) => (Ok a, w1, t1)
    | (Raise e, w1, t1) =>
        match handler e w1 with (r, w2, t2) => (r, w2, t1 ++ t2) end
    end.

(** [try: body finally: finalizer]: the finalizer runs in every case, and
    an exception of its own replaces the outcome of the body. *)
Definition try_finally {A} (body : M A) (finalizer : M unit) : M A :=
  fun w =>
    match body w with
    | (r, w1, t1) =>
        match finalizer w1 with
        | (Ok _, w2, t2) => (r, w2, t1 ++ t2)
        | (Raise e, w2, t2) => (Raise e, w2, t1 ++ t2)
        end
    end.

Definition emit (ev : E) : M unit := fun w => (Ok tt, w, [ev]).

(** A call into the outside world; [record] turns its result into the
    event left in the trace. *)
Definition call {A} (op : W -> result A * W) (record : result A -> E)
  : M A :=
  fun w => match op w with (r, w1) => (r, w1, [record r]) end.

(** A call into the outside world that leaves no event. *)
Definition quiet {A} (op : W -> result A * W) : M A :=
  fun w => match op w with (r, w1) => (r, w1, []) end.

Definition read {A} (f : W -> A) : M A := fun w => (Ok (f w), w, []).

End Effects.

Arguments ret {W E A} a.
Arguments raise {W E A} e.
Arguments emit {W E} ev.
Arguments read {W E A} f.
Arguments quiet {W E A} op.
Arguments bind {W E A B} m f.
Arguments try_except {W E A} body handler.
Arguments try_finally {W E A} body finalizer.
Arguments call {W E A} op record.

Declare Scope py_scope.
Delimit Scope py_scope with py.
Notation "x <- m ;; k" := (bind m (fun x => k))
(at level 61, m at next level, right associativity) : py_scope.
Notation "m ;; k" := (bind m (fun _ => k))
(at level 61, right associativity) : py_scope.
Open Scope py_scope.

(** ** Data of the backend *)

(** The [device_info] dictionary handed to Netmiko. *)
Record device_info : Type := {
device_type : string;
host : string;
username : string;
password : string;
port : nat;
secret : option string
}.

(** The [credentials] sub-document of an inventory element. *)
Record credentials : Type := {
cred_username : option string;
cred_password : option string;
cred_device_type : option string
}.

(** The value found under the key ["credentials"] of an element: the key
  may be missing, may hold [None] (the model's default), or a dict. *)
Inductive credentials_field : Type :=
| NoKey
| PyNone
| Creds (c : credentials).

(** A document of the [network_elements] collection. *)
Record element : Type := {
elem_id : string;           (* "_id" *)
name : string;
ip_address : string;
status : string;
elem_credentials : credentials_field
}.

(** A document written to [config_backups]. *)
Record backup : Type := {
element_id : string;
device_name : string;
config_content : string;
backup_type : string;
file_size : nat;
created_at : N
}.

(** ** The outside world *)

Record Env : Type := {
World : Type;
Conn : Type;      (* a Netmiko connection object *)
(* netmiko.ConnectHandler( **device_info ) *)
ConnectHandler : device_info -> World -> result Conn * World;
(* connection.send_command(command) *)
send_command : Conn -> string -> World -> result string * World;
(* connection.disconnect() *)
conn_disconnect : Conn -> World -> result unit * World;
(* database.network_elements.find({"status": s}), fully iterated *)
find_by_status : string -> World -> result (list element) * World;
(* database.<collection>.insert_one(doc) *)
insert_one : string -> backup -> World -> result unit * World;
(* datetime.utcnow() and datetime.now(), in seconds *)
now : World -> N;
(* asyncio.sleep(seconds) *)
sleep : N -> World -> World
}.

Inductive level : Type := INFO | ERROR.

(** Messages written through [logger] in [network_device.py]. *)
Inductive log_message : Type :=
| Connecting (h : string)              (* "Connecting to {host}..." *)
| Connected (h : string)               (* "Connected to {host}" *)
| ConnectionFailed (e : exn)           (* "Connection failed: {str(e)}" *)
| Disconnected (h : string)            (* "Disconnected from {host}" *)
| Executing (command : string)         (* "Executing: {command}" *)
| CommandExecutionFailed (e : exn).    (* "Command execution failed: {str(e)}" *)

(** Lines printed by [backup_all_devices] and by [scheduler]. *)
Inductive line : Type :=
| StartingBackup (n : nat)               (* "Starting backup for {n} devices..." *)
| BackedUp (device : string)             (* "(check) Backed up {name}" *)
| FailedBackup (device : string) (e : exn) (* "(cross) Failed to backup {name}: {str(e)}" *)
(* lines printed by [scheduler] *)
| RunningScheduledBackup (stamp : N)     (* "[{now}] Running scheduled backup..." *)
| BackupComplete (stamp : N).            (* "[{now}] Backup complete. Sleeping for 6 hours..." *)

Inductive event (C : Type) : Type :=
| Log (lvl : level) (msg : log_message)
| Print (l : line)
| NetOpen (info : device_info) (r : result C)
| NetSend (c : C) (command : string) (r : result string)
| NetClose (c : C) (r : result unit)
| DbInsert (collection : string) (doc : backup) (r : result unit)
| Sleep (seconds : N).
Arguments Log {C} lvl msg.
Arguments Print {C} l.
Arguments NetOpen {C} info r.
Arguments NetSend {C} c command r.
Arguments NetClose {C} c r.
Arguments DbInsert {C} collection doc r.
Arguments Sleep {C} seconds.

(** The events of an environment, and a computation over it. *)
Abbreviation Ev env := (event (Conn env)) (only parsing).
Abbreviation Run env A := (M (World env) (event (Conn env)) A) (only parsing).

(** ** [network_device.py] *)

Section Backend.

Context (env : Env).


(** An instance of [class NetworkDevice]: its two attributes. *)
Record NetworkDevice : Type := {
  info : device_info;
  connection : option (Conn env)
}.

(** [NetworkDevice.__init__] *)
Definition new_NetworkDevice (i : device_info) : NetworkDevice :=
  {| info := i; connection := None |}.

(** [NetworkDevice.connect]: returns the flag and the updated object. *)
Definition connect (self : NetworkDevice) : Run env (bool * NetworkDevice) :=
  try_except
    (emit (Log INFO (Connecting (host (info self)))) ;;
     c <- call (ConnectHandler env (info self)) (NetOpen (info self)) ;;
     emit (Log INFO (Connected (host (info self)))) ;;
     ret (true, {| info := info self; connection := Some c |}))
    (fun e =>
       emit (Log ERROR (ConnectionFailed e)) ;;
       ret (false, self)).

(** [NetworkDevice.disconnect]: the attribute [connection] is left as it
    is. *)
Definition disconnect (self : NetworkDevice) : Run env unit :=
  match connection self with
  | Some c =>
      call (conn_disconnect env c) (NetClose c) ;;
      emit (Log INFO (Disconnected (host (info self))))
  | None => ret tt
  end.

(** [NetworkDevice.execute_command] *)
Definition execute_command (self : NetworkDevice) (command : string)
  : Run env string :=
  match connection self with
  | None => raise "Not connected to device"
  | Some c =>
      try_except
        (emit (Log INFO (Executing command)) ;;
         call (send_command env c command) (NetSend c command))
        (fun e =>
           emit (Log ERROR (CommandExecutionFailed e)) ;;
           raise e)
  end.

(** The body of the [for] loop of [execute_commands]: the [try] block
    stores the output under the command, the [except] block the error text;
    [results] is the dictionary built so far. *)
Definition execute_commands_body (self : NetworkDevice)
    (results : dict string) (command : string) : Run env (dict string) :=
  try_except
    (output <- execute_command self command ;;
     ret (dict_set results command output))
    (fun e => ret (dict_set results command ("Error: " ++ e)%string)).

(** [for command in commands: ...], started with the dictionary [results]. *)
Fixpoint execute_commands_from (self : NetworkDevice)
    (commands : list string) (results : dict string)
  : Run env (dict string) :=
  match commands with
  | [] => ret results
  | command :: rest =>
      results' <- execute_commands_body self results command ;;
      execute_commands_from self rest results'
  end.

(** [NetworkDevice.execute_commands] *)
Definition execute_commands (self : NetworkDevice)
    (commands : list string) : Run env (dict string) :=
  execute_commands_from self commands [].

(** [create_device_connection]; [if secret:] leaves out a secret that is
    [None] or the empty string. *)
Definition create_device_connection (h u p dt : string) (pt : nat)
    (sec : option string) : NetworkDevice :=
  new_NetworkDevice
    {| device_type := dt; host := h; username := u; password := p;
       port := pt;
       secret := match sec with
                 | Some "" => None
                 | other => other
                 end |}.

End Backend.

(** ** [main.py]: the endpoint [execute_multiple_commands] *)

Section Endpoints.

Context (env : Env).

Record DeviceCredentials : Type := {
  dc_host : string;
  dc_username : string;
  dc_password : string;
  dc_device_type : string;
  dc_port : nat;
  dc_secret : option string
}.

Record MultiCommandRequest : Type := {
  req_credentials : DeviceCredentials;
  req_commands : list string
}.

(** The JSON object returned on success. *)
Record MultiCommandResponse : Type := {
  resp_success : bool;
  resp_device : string;
  resp_results : dict string
}.

(** [HTTPException(status_code=500, detail=d)], by its [str]. *)
Definition HTTPException_500 (d : string) : exn := ("500: " ++ d)%string.

(** [execute_multiple_commands].  [create_device_connection] and
    [connect] cannot raise, so [device] is always bound, with the state
    [connect] left it in, when the [finally] block runs. *)
Definition execute_multiple_commands (request : MultiCommandRequest)
  : Run env MultiCommandResponse :=
  let cr := req_credentials request in
  let device :=
    create_device_connection env (dc_host cr) (dc_username cr)
      (dc_password cr) (dc_device_type cr) (dc_port cr) (dc_secret cr) in
  connected <- connect device ;;
  let device := snd connected in
  try_finally
    (try_except
       (if negb (fst connected)
        then raise (HTTPException_500 "Failed to connect to device")
        else
          outputs <- execute_commands device (req_commands request) ;;
          ret {| resp_success := true;
                 resp_device := dc_host cr;
                 resp_results := outputs |})
       (fun e => raise (HTTPException_500 e)))
    (disconnect device).

End Endpoints.

(** ** [scheduler.py] *)

Section SchedulerPy.

Context (env : Env).

(** A pure Python expression that may raise. *)
Definition eval {A} (r : result A) : Run env A := fun w => (r, w, []).

(** [element["credentials"][key]]: subscripting [None] is a [TypeError],
    a missing key a [KeyError]. *)
Definition subscript (f : credentials_field) (key : string)
    (field : credentials -> option string) : result string :=
  match f with
  | NoKey => Raise "'credentials'"
  | PyNone => Raise "'NoneType' object is not subscriptable"
  | Creds c =>
      match field c with
      | Some v => Ok v
      | None => Raise ("'" ++ key ++ "'")%string
      end
  end.

(** [element["credentials"].get("device_type", "cisco_ios")] *)
Definition get_device_type (f : credentials_field) : result string :=
  match f with
  | NoKey => Raise "'credentials'"
  | PyNone => Raise "'NoneType' object has no attribute 'get'"
  | Creds c =>
      match cred_device_type c with
      | Some v => Ok v
      | None => Ok "cisco_ios"
      end
  end.

(** ["credentials" in element] *)
Definition has_credentials_key (e : element) : bool :=
  match elem_credentials e with
  | NoKey => false
  | _ => true
  end.

(** The [try] block of the loop of [backup_all_devices]. *)
Definition backup_attempt (e : element) : Run env unit :=
  u <- eval (subscript (elem_credentials e) "username" cred_username) ;;
  p <- eval (subscript (elem_credentials e) "password" cred_password) ;;
  dt <- eval (get_device_type (elem_credentials e)) ;;
  let device := create_device_connection env (ip_address e) u p dt 22 None in
  connected <- connect device ;;
  let device := snd connected in
  if fst connected then
    config <- execute_command device "show running-config" ;;
    stamp <- read (now env) ;;
    let doc :=
      {| element_id := elem_id e;
         device_name := name e;
         config_content := config;
         backup_type := "running";
         file_size := String.length config;
         created_at := stamp |} in
    call (insert_one env "config_backups" doc)
         (DbInsert "config_backups" doc) ;;
    emit (Print (BackedUp (name e))) ;;
    disconnect device
  else ret tt.

(** One iteration of the loop: [try: ... except Exception as e: print(...)]. *)
Definition backup_element (e : element) : Run env unit :=
  try_except (backup_attempt e)
    (fun x => emit (Print (FailedBackup (name e) x))).

(** [for element in elements: ...] *)
Fixpoint backup_each (elements : list element) : Run env unit :=
  match elements with
  | [] => ret tt
  | e :: rest => backup_element e ;; backup_each rest
  end.

(** [backup_all_devices].  Creating and closing the Motor client touches
    nothing that the code observes. *)
Definition backup_all_devices : Run env unit :=
  found <- quiet (find_by_status env "active") ;;
  let elements := filter has_credentials_key found in
  emit (Print (StartingBackup (List.length elements))) ;;
  backup_each elements.



End SchedulerPy.

(** ** [ConnectionManager] *)

Section ConnectionManager.

Variable W : Type.
Variable WebSocket : Type.
Variable Message : Type.
(* await connection.send_json(message) *)
Variable send_json : WebSocket -> Message -> W -> result unit * W.

Inductive ws_event : Type :=
| SendJson (connection : WebSocket) (message : Message) (r : result unit).

(** [ConnectionManager.broadcast], on the list [self.active_connections]. *)
Fixpoint broadcast (active_connections : list WebSocket) (message : Message)
  : M W ws_event unit :=
  match active_connections with
  | [] => ret tt
  | connection :: rest =>
      call (send_json connection message) (SendJson connection message) ;;
      broadcast rest message
  end.

(** The sockets on which a send completed. *)
Fixpoint delivered (t : list ws_event) : list WebSocket :=
  match t with
  | [] => []
  | SendJson c _ (Ok _) :: t' => c :: delivered t'
  | SendJson _ _ (Raise _) :: t' => delivered t'
  end.

(** The sockets on which a send was started. *)
Definition addressed (t : list ws_event) : list WebSocket :=
  map (fun ev => match ev with SendJson c _ _ => c end) t.

End ConnectionManager.

(** ** The frontend *)

Module Frontend.

(** Values of type [any] as they arrive from the JSON API. *)
Inductive js_value : Type :=
| JsUndefined
| JsNull
| JsBoolean (b : bool)
| JsNumber (n : nat)
| JsString (s : string).

Definition js_object : Type := dict js_value.

(** [o.key]: a missing property reads as [undefined]. *)
Definition get (o : js_object) (key : string) : js_value :=
  match dict_get o key with
  | Some v => v
  | None => JsUndefined
  end.

(** [v === 'literal'] *)
Definition strict_equals (v : js_value) (literal : string) : bool :=
  match v with
  | JsString s => String.eqb s literal
  | _ => false
  end.

Record stats : Type := {
  total : nat;
  active : nat;
  inactive : nat;
  warning : nat
}.

(** The [useMemo] body of [Dashboard]. *)
Definition Dashboard_stats (elements : list js_object) : stats :=
  {| total := List.length elements;
     active :=
       List.length (filter (fun e => strict_equals (get e "status") "active") elements);
     inactive :=
       List.length (filter (fun e => strict_equals (get e "status") "inactive") elements);
     warning :=
       List.length (filter (fun e => strict_equals (get e "status") "warning") elements) |}.

(** The four [StatCard]s in the order they are rendered: title and value. *)
Definition Dashboard_cards (elements : list js_object) : list (string * nat) :=
  let s := Dashboard_stats elements in
  [("Total Elements", total s); ("Active", active s);
   ("Warning", warning s); ("Inactive", inactive s)].

(** The refresh timer of [Home] in [page.tsx]:
    [loadData(); setInterval(loadData, 30000); return () => clearInterval(..)]. *)
Inductive browser_event : Type :=
| IntervalElapsed     (* 30000 ms have passed since the last firing *)
| LoadSettled         (* one pending [loadData] promise settles *)
| Unmounted.          (* the effect's cleanup runs *)

Record home_state : Type := {
  loads_in_flight : nat;
  timer_armed : bool
}.

(** State right after the effect ran: one [loadData] call is pending. *)
Definition mounted : home_state :=
  {| loads_in_flight := 1; timer_armed := true |}.

Definition home_step (st : home_state) (ev : browser_event) : home_state :=
  match ev with
  | IntervalElapsed =>
      if timer_armed st
      then {| loads_in_flight := S (loads_in_flight st); timer_armed := true |}
      else st
  | LoadSettled =>
      {| loads_in_flight := pred (loads_in_flight st);
         timer_armed := timer_armed st |}
  | Unmounted =>
      {| loads_in_flight := loads_in_flight st; timer_armed := false |}
  end.

Definition home_run (evs : list browser_event) : home_state :=
  fold_left home_step evs mounted.

(** The status of an element when it is a string. *)
Definition status_of (e : js_object) : option string :=
  match get e "status" with
  | JsString s => Some s
  | _ => None
  end.

(** How many elements have exactly the status string [s]. *)
Fixpoint count_status (s : string) (elements : list js_object) : nat :=
  match elements with
  | [] => 0
  | e :: rest =>
      match status_of e with
      | Some s' => if String.eqb s' s then S (count_status s rest)
                   else count_status s rest
      | None => count_status s rest
      end
  end.

(** Is the status one of the three the dashboard knows? *)
Definition categorised (e : js_object) : bool :=
  match status_of e with
  | Some s =>
      String.eqb s "active" || String.eqb s "warning" || String.eqb s "inactive"
  | None => false
  end.

(** How many elements have a status outside the three categories. *)
Fixpoint count_other (elements : list js_object) : nat :=
  match elements with
  | [] => 0
  | e :: rest =>
      if categorised e then count_other rest else S (count_other rest)
  end.

End Frontend.

(** ** Reading a trace *)

(** A counter driven by the events of a trace, and the largest value it
    takes at any point of the trace. *)
Section Peak.

Variable E : Type.
Variable step : nat -> E -> nat.

Fixpoint peak_from (n : nat) (t : list E) : nat :=
  match t with
  | [] => n
  | ev :: t' => Nat.max n (peak_from (step n ev) t')
  end.

End Peak.

Section Observers.

Variable C : Type.

(** The commands handed to the transport, with what came back. *)
Fixpoint sends (t : list (event C)) : list (string * result string) :=
  match t with
  | [] => []
  | NetSend _ command r :: t' => (command, r) :: sends t'
  | _ :: t' => sends t'
  end.

(** Calls that reach the device. *)
Definition is_net (ev : event C) : bool :=
  match ev with
  | NetOpen _ _ | NetSend _ _ _ | NetClose _ _ => true
  | _ => false
  end.

Definition net_calls (t : list (event C)) : list (event C) := filter is_net t.

(** Events of running a command: the log entries and the send itself. *)
Definition is_command_event (ev : event C) : bool :=
  match ev with
  | Log _ _ | NetSend _ _ _ => true
  | _ => false
  end.

(** Everything written with [print], in order. *)
Fixpoint printed (t : list (event C)) : list line :=
  match t with
  | [] => []
  | Print l :: t' => l :: printed t'
  | _ :: t' => printed t'
  end.




(** Hosts on which [ConnectHandler] was called. *)
Fixpoint dialed (t : list (event C)) : list string :=
  match t with
  | [] => []
  | NetOpen i _ :: t' => host i :: dialed t'
  | _ :: t' => dialed t'
  end.

Definition is_failed_open (ev : event C) : bool :=
  match ev with NetOpen _ (Raise _) => true | _ => false end.


Definition failed_opens (t : list (event C)) : nat :=
  List.length (filter is_failed_open t).


(** Sessions currently open: one more after every successful
    [ConnectHandler], one less after every completed [disconnect]. *)
Definition session_step (n : nat) (ev : event C) : nat :=
  match ev with
  | NetOpen _ (Ok _) => S n
  | NetClose _ (Ok _) => pred n
  | _ => n
  end.

Definition open_sessions (t : list (event C)) : nat :=
  fold_left session_step t 0.


(** Passes started and not yet reported complete by [scheduler]. *)
Definition pass_step (n : nat) (ev : event C) : nat :=
  match ev with
  | Print (RunningScheduledBackup _) => S n
  | Print (BackupComplete _) => pred n
  | _ => n
  end.

Definition passes_in_flight (t : list (event C)) : nat :=
  fold_left pass_step t 0.






End Observers.


(** The ways one round of the loop of [backup_all_devices] can go for the
    element [e], each with the trace it leaves. *)
Section DeviceRuns.

Context (env : Env).

Definition running_config : string := "show running-config".

Definition dialing (e : element) (i : device_info) (r : result (Conn env))
  : list (Ev env) :=
  [Log INFO (Connecting (ip_address e)); NetOpen i r].

Definition asking (e : element) (c : Conn env) (r : result string)
  : list (Ev env) :=
  [Log INFO (Connected (ip_address e));
   Log INFO (Executing running_config);
   NetSend c running_config r].

Inductive device_run (e : element) : list (Ev env) -> Prop :=
| bad_credentials x :
    device_run e [Print (FailedBackup (name e) x)]
| unreachable i x :
    host i = ip_address e ->
    device_run e (dialing e i (Raise x) ++ [Log ERROR (ConnectionFailed x)])
| command_failed i c x :
    host i = ip_address e ->
    device_run e
      (dialing e i (Ok c) ++ asking e c (Raise x)
       ++ [Log ERROR (CommandExecutionFailed x);
           Print (FailedBackup (name e) x)])
| insert_failed i c config doc x :
    host i = ip_address e ->
    device_name doc = name e -> config_content doc = config ->
    device_run e
      (dialing e i (Ok c) ++ asking e c (Ok config)
       ++ [DbInsert "config_backups" doc (Raise x);
           Print (FailedBackup (name e) x)])
| backed_up i c config doc :
    host i = ip_address e ->
    device_name doc = name e -> config_content doc = config ->
    device_run e
      (dialing e i (Ok c) ++ asking e c (Ok config)
       ++ [DbInsert "config_backups" doc (Ok tt);
           Print (BackedUp (name e));
           NetClose c (Ok tt);
           Log INFO (Disconnected (ip_address e))])
| close_failed i c config doc x :
    host i = ip_address e ->
    device_name doc = name e -> config_content doc = config ->
    device_run e
      (dialing e i (Ok c) ++ asking e c (Ok config)
       ++ [DbInsert "config_backups" doc (Ok tt);
           Print (BackedUp (name e));
           NetClose c (Raise x);
           Print (FailedBackup (name e) x)]).







(** The devices a pass started in world [w] works on: the active elements
    that carry a ["credentials"] key (none when the query fails). *)
Definition attempted (w : World env) : list element :=
  match fst (find_by_status env "active" w) with
  | Ok found => filter has_credentials_key found
  | Raise _ => []
  end.

End DeviceRuns.

(** What [execute_commands] stores for a command, given what the transport
    answered. *)
Definition stored_text (r : result string) : string :=
  match r with
  | Ok output => output
  | Raise e => ("Error: " ++ e)%string
  end.

(** The distinct strings of a list, each at the place of its first
    occurrence. *)
Fixpoint first_occurrences (l : list string) : list string :=
  match l with
  | [] => []
  | x :: l' =>
      x :: filter (fun y => negb (String.eqb y x)) (first_occurrences l')
  end.

(** Membership test on keys, and a dictionary after a series of
    assignments [d[k] = v]. *)
Definition mem (k : string) (l : list string) : bool :=
  existsb (String.eqb k) l.

Definition store (d : dict string) (kv : string * string) : dict string :=
  dict_set d (fst kv) (snd kv).

Definition store_all (d : dict string) (kvs : list (string * string))
  : dict string :=
  fold_left store kvs d.

Definition trace_of {W E A} (o : result A * W * list E) : list E := snd o.
Definition result_of {W E A} (o : result A * W * list E) : result A :=
  fst (fst o).

(** ** Test benches *)

(** A laboratory network: an inventory in the database, a set of reachable
    hosts, scripted answers to the n-th command sent, a database that
    accepts writes or not, and the seconds every command takes.  A
    connection is named by its host; once closed it answers no command. *)
Record lab_world : Type := {
  clock : N;
  commands_sent : nat;
  closed : list string
}.

Definition lab (inventory : list element) (reachable : string -> bool)
    (answer : nat -> string -> result string) (db_writable : bool)
    (seconds_per_command : N) : Env :=
  {| World := lab_world;
     Conn := string;
     ConnectHandler := fun i w =>
       if reachable (host i)
       then (Ok (host i),
             {| clock := clock w; commands_sent := commands_sent w;
                closed := filter (fun h => negb (String.eqb h (host i)))
                                 (closed w) |})
       else (Raise "timed out", w);
     send_command := fun c command w =>
       if mem c (closed w) then (Raise "Socket is closed", w)
       else (answer (commands_sent w) command,
             {| clock := (clock w + seconds_per_command)%N;
                commands_sent := S (commands_sent w);
                closed := closed w |});
     conn_disconnect := fun c w =>
       (Ok tt,
        {| clock := clock w; commands_sent := commands_sent w;
           closed := c :: closed w |});
     find_by_status := fun s w =>
       (Ok (filter (fun e => String.eqb (status e) s) inventory), w);
     insert_one := fun _ _ w =>
       (if db_writable then Ok tt else Raise "database unavailable", w);
     now := clock;
     sleep := fun n w =>
       {| clock := (clock w + n)%N; commands_sent := commands_sent w;
          closed := closed w |} |}.

Definition power_on : lab_world :=
  {| clock := 0%N; commands_sent := 0; closed := [] |}.

Definition router (n i : string) : element :=
  {| elem_id := n; name := n; ip_address := i; status := "active";
     elem_credentials :=
       Creds {| cred_username := Some "admin";
                cred_password := Some "cisco123";
                cred_device_type := None |} |}.

Definition r1 : element := router "Router-01" "192.168.1.1".
Definition r2 : element := router "Router-02" "192.168.1.2".
Definition r3 : element := router "Router-03" "192.168.1.3".

Definition always_up (_ : string) : bool := true.
Definition healthy (_ : nat) (_ : string) : result string :=
  Ok "ok".

(** The first command sent times out, every later one is answered. *)
Definition first_times_out (n : nat) (_ : string) : result string :=
  match n with
  | 0 => Raise "read timeout"
  | _ => Ok "ok"
  end.

(** The device rejects the command ["bogus-cmd"] and answers the others. *)
Definition rejects_bogus (_ : nat) (command : string) : result string :=
  if String.eqb command "bogus-cmd" then Raise "invalid input"
  else Ok "ok".

Definition never_answers (_ : nat) (_ : string) : result string :=
  Raise "read timeout".

Definition healthy_lab : Env := lab [r1; r2; r3] always_up healthy true 1%N.
Definition flaky_lab : Env := lab [r1] always_up first_times_out true 1%N.
Definition picky_lab : Env := lab [r1] always_up rejects_bogus true 1%N.
Definition silent_lab : Env := lab [r1] always_up never_answers true 1%N.
Definition dark_lab : Env := lab [r1] (fun _ => false) healthy true 1%N.

(** A device object of a lab with an open connection to [h]. *)
Definition attached (e : Env) (c : Conn e) (h : string) : NetworkDevice e :=
  {| info := info (create_device_connection e h "admin" "cisco123"
                    "cisco_ios" 22 None);
     connection := Some c |}.

(** Sockets are numbered; socket [closed] has gone away. *)
Definition lab_send_json (closed : nat) (ws : nat) (_ : string) (w : unit)
  : result unit * unit :=
  (if Nat.eqb ws closed then Raise "WebSocket is not connected"
   else Ok tt, w).

(** ** More of [main.py]: the endpoint [execute_device_command] *)

Section SingleCommandEndpoint.

Context (env : Env).

Record CommandRequest : Type := {
  creq_credentials : DeviceCredentials;
  creq_command : string
}.

(** The JSON object returned on success. *)
Record CommandResponse : Type := {
  cresp_success : bool;
  cresp_command : string;
  cresp_output : string;
  cresp_device : string
}.

(** [execute_device_command]; as in [execute_multiple_commands],
    [create_device_connection] and [connect] cannot raise, so [device] is
    bound, in the state [connect] left it in, when [finally] runs. *)
Definition execute_device_command (request : CommandRequest)
  : Run env CommandResponse :=
  let cr := creq_credentials request in
  let device :=
    create_device_connection env (dc_host cr) (dc_username cr)
      (dc_password cr) (dc_device_type cr) (dc_port cr) (dc_secret cr) in
  connected <- connect device ;;
  let device := snd connected in
  try_finally
    (try_except
       (if negb (fst connected)
        then raise (HTTPException_500 "Failed to connect to device")
        else
          output <- execute_command device (creq_command request) ;;
          ret {| cresp_success := true;
                 cresp_command := creq_command request;
                 cresp_output := output;
                 cresp_device := dc_host cr |})
       (fun e => raise (HTTPException_500 e)))
    (disconnect device).

End SingleCommandEndpoint.

(** ** More ways to read a trace *)

Section MoreObservers.

Variable C : Type.

(** The connections that were opened, in order. *)
Fixpoint opened (t : list (event C)) : list C :=
  match t with
  | [] => []
  | NetOpen _ (Ok c) :: t' => c :: opened t'
  | _ :: t' => opened t'
  end.

(** The connections on which the transport's disconnect was called. *)
Fixpoint closed_calls (t : list (event C)) : list C :=
  match t with
  | [] => []
  | NetClose c _ :: t' => c :: closed_calls t'
  | _ :: t' => closed_calls t'
  end.

(** The backup documents the database accepted, in order. *)
Fixpoint stored (t : list (event C)) : list backup :=
  match t with
  | [] => []
  | DbInsert _ doc (Ok _) :: t' => doc :: stored t'
  | _ :: t' => stored t'
  end.

(** The devices reported as backed up, in order. *)
Fixpoint backed_up_names (t : list (event C)) : list string :=
  match t with
  | [] => []
  | Print (BackedUp n) :: t' => n :: backed_up_names t'
  | _ :: t' => backed_up_names t'
  end.

End MoreObservers.

(** What the transport answered to the last send of [command]. *)
Fixpoint last_answer (command : string) (ss : list (string * result string))
  : option (result string) :=
  match ss with
  | [] => None
  | (c, r) :: ss' =>
      match last_answer command ss' with
      | Some r' => Some r'
      | None => if String.eqb c command then Some r else None
      end
  end.

(** An element whose credentials hold both a user name and a password:
    only for such an element does the backup pass get as far as dialling. *)
Definition dialable (e : element) : bool :=
  match elem_credentials e with
  | Creds c =>
      match cred_username c, cred_password c with
      | Some _, Some _ => true
      | _, _ => false
      end
  | _ => false
  end.

(** A request of the test bench, for the host [h]. *)
Definition lab_credentials (h : string) : DeviceCredentials :=
  {| dc_host := h; dc_username := "admin"; dc_password := "cisco123";
     dc_device_type := "cisco_ios"; dc_port := 22; dc_secret := None |}.

(** ** What a round of the backup pass should look like *)

Section Tidy.

Context (env : Env).

(** The connection parameters the pass uses for [e]: its address, the
    user name and password of its credentials, their device type or
    ["cisco_ios"], port 22 and no enable secret. *)
Definition backup_info (e : element) (i : device_info) : Prop :=
  host i = ip_address e /\ port i = 22 /\ secret i = None
  /\ exists c,
       elem_credentials e = Creds c
       /\ cred_username c = Some (username i)
       /\ cred_password c = Some (password i)
       /\ device_type i = match cred_device_type c with
                          | Some dt => dt
                          | None => "cisco_ios"
                          end.

(** A backup document of [e]. *)
Definition backup_doc (e : element) (doc : backup) : Prop :=
  element_id doc = elem_id e /\ device_name doc = name e
  /\ backup_type doc = "running"
  /\ file_size doc = String.length (config_content doc).

Definition tidy (e : element) (t : list (Ev env)) : Prop :=
  dialed t = (if dialable e then [ip_address e] else [])
  /\ (forall i r, In (NetOpen i r) t -> backup_info e i)
  /\ map fst (sends t) = map (fun _ => "show running-config") (opened t)
  /\ (forall col doc r, In (DbInsert col doc r) t ->
        col = "config_backups" /\ backup_doc e doc
        /\ In ("show running-config", Ok (config_content doc)) (sends t))
  /\ map device_name (stored t) = backed_up_names t.

End Tidy.

(** ** More of [main.py]: the endpoint [quick_device_check] *)

(** A document written to [command_outputs]. *)
Record metric_doc : Type := {
  m_element_id : string;
  metric_type : string;
  m_command : string;
  m_output : string;
  m_timestamp : N
}.

(** The JSON object returned on success. *)
Record QuickCheckResponse : Type := {
  qc_success : bool;
  qc_element_id : string;
  qc_device : string;
  qc_results : dict string
}.

Definition HTTPException_404 (d : string) : exn := ("404: " ++ d)%string.
Definition HTTPException_400 (d : string) : exn := ("400: " ++ d)%string.

(** The four commands of the quick check. *)
Definition quick_commands : list string :=
  ["show ip int brief"; "show ip ospf neighbor";
   "show version | include uptime"; "show processes cpu | include CPU"].

Section QuickCheck.

Context (env : Env).

(* database.network_elements.find_one({"_id": ObjectId(element_id)}):
   [None] when no document matches; it raises when the id is malformed or
   the database fails *)
Variable find_one : string -> World env -> result (option element) * World env.
(* database.command_outputs.insert_one(metric) *)
Variable insert_command_output :
  metric_doc -> World env -> result unit * World env.

(** The events of the endpoint: those of the device session, and the
    writes to [command_outputs]. *)
Inductive check_event : Type :=
| Device (ev : Ev env)
| MetricInsert (doc : metric_doc) (r : result unit).

(** A computation of [network_device.py] run inside the endpoint. *)
Definition lift {A} (m : Run env A) : M (World env) check_event A :=
  fun w => match m w with (r, w1, t) => (r, w1, map Device t) end.

(** [for command, output in outputs.items(): ... insert_one(metric)] *)
Fixpoint store_metrics (element_id : string) (items : dict string)
  : M (World env) check_event unit :=
  match items with
  | [] => ret tt
  | (command, output) :: rest =>
      stamp <- read (now env) ;;
      let metric :=
        {| m_element_id := element_id;
           metric_type := "command_output";
           m_command := command;
           m_output := output;
           m_timestamp := stamp |} in
      call (insert_command_output metric) (MetricInsert metric) ;;
      store_metrics element_id rest
  end.

(** The arguments of [create_device_connection] in the [try] block: the
    subscripts of [creds] may raise before [device] is bound. *)
Definition quick_check_device (element : element)
  : result (NetworkDevice env) :=
  match subscript (elem_credentials element) "username" cred_username with
  | Raise x => Raise x
  | Ok u =>
      match subscript (elem_credentials element) "password" cred_password with
      | Raise x => Raise x
      | Ok p =>
          match get_device_type (elem_credentials element) with
          | Raise x => Raise x
          | Ok dt =>
              Ok (create_device_connection env (ip_address element) u p dt
                    22 None)
          end
      end
  end.

(** [quick_device_check].  The two checks before the [try] block raise
    their own exceptions; inside it every exception becomes an HTTP 500,
    and [finally] disconnects when [device] is bound ([connect] cannot
    raise, so it is bound exactly when its arguments could be read). *)
Definition quick_device_check (element_id : string)
  : M (World env) check_event QuickCheckResponse :=
  found <- quiet (find_one element_id) ;;
  match found with
  | None => raise (HTTPException_404 "Element not found")
  | Some element =>
      if negb (has_credentials_key element)
      then raise (HTTPException_400 "No credentials stored for this element")
      else
        match quick_check_device element with
        | Raise x => raise (HTTPException_500 x)
        | Ok device =>
            connected <- lift (connect device) ;;
            let device := snd connected in
            try_finally
              (try_except
                 (if negb (fst connected)
                  then raise (HTTPException_500 "Failed to connect to device")
                  else
                    outputs <- lift (execute_commands device quick_commands) ;;
                    store_metrics element_id outputs ;;
                    ret {| qc_success := true;
                           qc_element_id := element_id;
                           qc_device := ip_address element;
                           qc_results := outputs |})
                 (fun e => raise (HTTPException_500 e)))
              (lift (disconnect device))
        end
  end.

(** The device events of the endpoint's trace. *)
Fixpoint device_events (t : list check_event) : list (Ev env) :=
  match t with
  | [] => []
  | Device ev :: t' => ev :: device_events t'
  | MetricInsert _ _ :: t' => device_events t'
  end.

(** The metric documents handed to the database, in order. *)
Fixpoint metrics (t : list check_event) : list metric_doc :=
  match t with
  | [] => []
  | MetricInsert doc _ :: t' => doc :: metrics t'
  | Device _ :: t' => metrics t'
  end.

(** The writes the database refused. *)
Fixpoint failed_metrics (t : list check_event) : list exn :=
  match t with
  | [] => []
  | MetricInsert _ (Raise x) :: t' => x :: failed_metrics t'
  | _ :: t' => failed_metrics t'
  end.

End QuickCheck.

(** ** More of the frontend: the table, the alert panel, the page *)

Module Components.

Import Frontend.

(** JavaScript's notion of a value that counts as true. *)
Definition truthy (v : js_value) : bool :=
  match v with
  | JsUndefined | JsNull => false
  | JsBoolean b => b
  | JsNumber n => negb (Nat.eqb n 0)
  | JsString s => negb (String.eqb s "")
  end.

(** [a || b] *)
Definition js_or (a b : js_value) : js_value := if truthy a then a else b.

(** *** [ElementList.tsx] *)

(** [getStatusColor]: a [switch] compares with [===]. *)
Definition getStatusColor (status : js_value) : string :=
  if strict_equals status "active" then "bg-green-100 text-green-800"
  else if strict_equals status "warning" then "bg-yellow-100 text-yellow-800"
  else if strict_equals status "inactive" then "bg-red-100 text-red-800"
  else "bg-gray-100 text-gray-800".

(** One [<tr>] of the table. *)
Record element_row : Type := {
  row_key : js_value;
  row_name : js_value;
  row_ip : js_value;
  row_type : js_value;
  row_location : js_value;
  row_badge_class : string;
  row_badge_text : js_value
}.

Definition ElementList_row (element : js_object) : element_row :=
  {| row_key := get element "_id";
     row_name := get element "name";
     row_ip := get element "ip_address";
     row_type := get element "type";
     row_location := js_or (get element "location") (JsString "N/A");
     row_badge_class := getStatusColor (get element "status");
     row_badge_text := get element "status" |}.

(** What [ElementList] renders: the rows and, when there is none, the
    notice "No network elements found". *)
Record ElementList_view : Type := {
  rows : list element_row;
  none_found : bool
}.

Definition ElementList (elements : list js_object) : ElementList_view :=
  {| rows := map ElementList_row elements;
     none_found := Nat.eqb (List.length elements) 0 |}.

(** *** [AlertPanel.tsx] *)

Definition getSeverityColor (severity : js_value) : string :=
  if strict_equals severity "critical"
  then "bg-red-100 border-red-500 text-red-800"
  else if strict_equals severity "high"
  then "bg-orange-100 border-orange-500 text-orange-800"
  else if strict_equals severity "medium"
  then "bg-yellow-100 border-yellow-500 text-yellow-800"
  else if strict_equals severity "low"
  then "bg-blue-100 border-blue-500 text-blue-800"
  else "bg-gray-100 border-gray-500 text-gray-800".

(** [alerts.filter(a => !a.resolved)] *)
Definition unresolvedAlerts (alerts : list js_object) : list js_object :=
  filter (fun a => negb (truthy (get a "resolved"))) alerts.

(** One alert card; its Resolve button passes [alert._id]. *)
Record alert_card : Type := {
  card_key : js_value;
  card_class : string;
  card_severity : js_value;
  card_message : js_value;
  card_element_id : js_value
}.

Definition AlertPanel_card (alert : js_object) : alert_card :=
  {| card_key := get alert "_id";
     card_class := getSeverityColor (get alert "severity");
     card_severity := get alert "severity";
     card_message := get alert "message";
     card_element_id := get alert "element_id" |}.

(** What [AlertPanel] renders: the number in "Active Alerts (n)", the
    cards and, when there is none, the notice "No active alerts". *)
Record AlertPanel_view : Type := {
  header_count : nat;
  cards : list alert_card;
  no_active_alerts : bool
}.

Definition AlertPanel (alerts : list js_object) : AlertPanel_view :=
  {| header_count := List.length (unresolvedAlerts alerts);
     cards := map AlertPanel_card (unresolvedAlerts alerts);
     no_active_alerts := Nat.eqb (List.length (unresolvedAlerts alerts)) 0 |}.

(** *** [api.ts], [AlertPanel.handleResolve] and [Home.loadData] *)

(** The JSON body of a response, as far as the page reads it: the
    property [data] ([None] when it is missing or [null]). *)
Record response_body : Type := {
  body_data : option (list js_object)
}.

Inductive request : Type :=
| GET (url : string) (params : list (string * js_value))
| PUT (url : string).

(** What the page keeps in [useState]. *)
Record page_state : Type := {
  st_elements : list js_object;
  st_alerts : list js_object;
  st_loading : bool
}.

Definition initial_state : page_state :=
  {| st_elements := []; st_alerts := []; st_loading := true |}.

Inductive ui_event : Type :=
| Http (rq : request) (r : result response_body)
| ConsoleError (e : exn)
| OnRefresh.

Section Api.

Variable W : Type.
(* the axios instance [api]: a response outside 2xx or a network error
   rejects *)
Variable axios : request -> W -> result response_body * W.

Definition fetchElements (status : option string)
  : M W ui_event response_body :=
  let params :=
    match status with
    | Some s => if String.eqb s "" then [] else [("status", JsString s)]
    | None => []
    end in
  call (axios (GET "/api/elements" params)) (Http (GET "/api/elements" params)).

Definition fetchAlerts (resolved : option bool)
  : M W ui_event response_body :=
  let params :=
    match resolved with
    | Some b => [("resolved", JsBoolean b)]
    | None => []
    end in
  call (axios (GET "/api/alerts" params)) (Http (GET "/api/alerts" params)).



(** [Promise.all] of two calls: both are started, and the array is there
    only when both fulfil.  (When both reject, which rejection is reported
    depends on timing; the page only logs it.) *)
Definition promise_all2 {A B} (p1 : M W ui_event A) (p2 : M W ui_event B)
  : M W ui_event (A * B) :=
  fun w =>
    match p1 w with
    | (r1, w1, t1) =>
        match p2 w1 with
        | (r2, w2, t2) =>
            (match r1, r2 with
             | Ok a, Ok b => Ok (a, b)
             | Raise e, _ => Raise e
             | Ok _, Raise e => Raise e
             end, w2, t1 ++ t2)
        end
    end.

(** [x.data || []] *)
Definition data_or_empty (b : response_body) : list js_object :=
  match body_data b with
  | Some l => l
  | None => []
  end.

(** [loadData], from the state [st] to the state after it settled. *)
Definition loadData (st : page_state) : M W ui_event page_state :=
  try_except
    (both <- promise_all2 (fetchElements None) (fetchAlerts None) ;;
     ret {| st_elements := data_or_empty (fst both);
            st_alerts := data_or_empty (snd both);
            st_loading := false |})
    (fun e =>
       emit (ConsoleError e) ;;
       ret {| st_elements := st_elements st;
              st_alerts := st_alerts st;
              st_loading := false |}).

(** The requests of a trace, in order. *)
Fixpoint requests (t : list ui_event) : list request :=
  match t with
  | [] => []
  | Http rq _ :: t' => rq :: requests t'
  | _ :: t' => requests t'
  end.


End Api.

(** *** [DeviceHealth.tsx] and the search box of the guide *)



(** [s.includes(t)] *)
Fixpoint includes (s t : string) : bool :=
  if String.prefix t s then true
  else match s with
       | EmptyString => false
       | String _ s' => includes s' t
       end.

(** The fields the search reads; they are strings. *)
Record listed : Type := {
  l_name : string;
  l_ip_address : string;
  l_type : string
}.

Section Search.

(* String.prototype.toLowerCase *)
Variable toLowerCase : string -> string.

(** [filteredElements] *)
Definition filteredElements (searchTerm : string) (elements : list listed)
  : list listed :=
  filter
    (fun element =>
       includes (toLowerCase (l_name element)) (toLowerCase searchTerm)
       || includes (l_ip_address element) searchTerm
       || includes (toLowerCase (l_type element)) (toLowerCase searchTerm))
    elements.

End Search.

(** Lower case for the letters A to Z. *)
Definition ascii_lower (c : Ascii.ascii) : Ascii.ascii :=
  let n := Ascii.nat_of_ascii c in
  if Nat.leb 65 n && Nat.leb n 90 then Ascii.ascii_of_nat (n + 32) else c.

Fixpoint lower (s : string) : string :=
  match s with
  | EmptyString => EmptyString
  | String c s' => String (ascii_lower c) (lower s')
  end.

End Components.

(** * Properties *)

(** ** Dictionaries and lists *)

Lemma filter_twice {A} (f g : A -> bool) (l : list A) :
  filter f (filter g l) = filter (fun x => g x && f x) l.
Proof.
  induction l as [|a l IH]; simpl; [reflexivity|].
  destruct (g a); simpl; [destruct (f a)|]; rewrite IH; reflexivity.
Qed.

Lemma filter_all {A} (f : A -> bool) (l : list A) :
  (forall x, In x l -> f x = true) -> filter f l = l.
Proof.
  induction l as [|a l IH]; simpl; intros H; [reflexivity|].
  rewrite (H a (or_introl eq_refl)), IH; auto.
Qed.

Lemma mem_In k l : mem k l = true <-> In k l.
Proof.
  unfold mem. rewrite existsb_exists. split.
  - intros [x [Hx He]]. apply String.eqb_eq in He. subst. exact Hx.
  - intros H. exists k. split; [exact H | apply String.eqb_refl].
Qed.

Lemma mem_app k l1 l2 : mem k (l1 ++ l2) = mem k l1 || mem k l2.
Proof. unfold mem. apply existsb_app. Qed.

Lemma keys_dict_set (d : dict string) k v :
  keys (dict_set d k v) = if mem k (keys d) then keys d else keys d ++ [k].
Proof.
  induction d as [|[k' v'] d IH]; simpl; [reflexivity|].
  rewrite (String.eqb_sym k k').
  destruct (String.eqb k' k) eqn:E; simpl; [reflexivity|].
  unfold keys in *. rewrite IH. destruct (mem k (map fst d)); reflexivity.
Qed.

Lemma dict_get_set (d : dict string) k v k' :
  dict_get (dict_set d k v) k' =
  if String.eqb k k' then Some v else dict_get d k'.
Proof.
  induction d as [|[k0 v0] d IH]; simpl.
  - reflexivity.
  - destruct (String.eqb k0 k) eqn:E0; simpl.
    + apply String.eqb_eq in E0. subst k0.
      destruct (String.eqb k k'); reflexivity.
    + destruct (String.eqb k0 k') eqn:E1.
      * apply String.eqb_eq in E1. subst k0.
        rewrite String.eqb_sym, E0. reflexivity.
      * exact IH.
Qed.

Lemma keys_store_all kvs : forall d,
  keys (store_all d kvs) =
  keys d ++ filter (fun k => negb (mem k (keys d)))
                   (first_occurrences (map fst kvs)).
Proof.
  induction kvs as [|[k v] kvs IH]; intros d; simpl.
  - symmetry. apply app_nil_r.
  - unfold store_all in *. simpl. rewrite IH. unfold store. simpl.
    rewrite keys_dict_set, filter_twice.
    destruct (mem k (keys d)) eqn:Hk; simpl.
    + f_equal. apply filter_ext. intros y.
      destruct (String.eqb_spec y k) as [->|Hne]; simpl.
      * rewrite Hk. reflexivity.
      * destruct (mem y (keys d)); reflexivity.
    + rewrite <- app_assoc. simpl. do 2 f_equal. apply filter_ext. intros y.
      rewrite mem_app.
      replace (mem y [k]) with (String.eqb y k)
        by (unfold mem; simpl; rewrite orb_false_r; reflexivity).
      destruct (mem y (keys d)), (String.eqb y k); reflexivity.
Qed.

Lemma first_occurrences_NoDup l : NoDup l -> first_occurrences l = l.
Proof.
  induction 1 as [|x l Hx _ IH]; simpl; [reflexivity|].
  rewrite IH. f_equal. apply filter_all. intros y Hy.
  apply negb_true_iff, String.eqb_neq. intros ->. contradiction.
Qed.

Lemma first_occurrences_length l :
  List.length (first_occurrences l) <= List.length l.
Proof.
  induction l as [|x l IH]; simpl; [lia|].
  pose proof (filter_length_le (fun y => negb (String.eqb y x))
                (first_occurrences l)). lia.
Qed.

Lemma dict_get_store_all_other kvs : forall d k,
  ~ In k (map fst kvs) -> dict_get (store_all d kvs) k = dict_get d k.
Proof.
  induction kvs as [|[k0 v0] kvs IH]; intros d k Hk; simpl; [reflexivity|].
  unfold store_all in *. simpl in *. rewrite IH by tauto.
  unfold store. simpl. rewrite dict_get_set.
  destruct (String.eqb k0 k) eqn:E; [|reflexivity].
  apply String.eqb_eq in E. tauto.
Qed.

Lemma dict_get_store_all_last kvs1 kvs2 d k v :
  ~ In k (map fst kvs2) ->
  dict_get (store_all d (kvs1 ++ (k, v) :: kvs2)) k = Some v.
Proof.
  intros Hk. unfold store_all. rewrite fold_left_app. simpl.
  fold (store_all (store (fold_left store kvs1 d) (k, v)) kvs2).
  rewrite dict_get_store_all_other by exact Hk.
  unfold store. simpl. rewrite dict_get_set, String.eqb_refl. reflexivity.
Qed.

Lemma dict_get_store_all_some kvs : forall d k,
  In k (map fst kvs) -> exists v, dict_get (store_all d kvs) k = Some v.
Proof.
  induction kvs as [|[k0 v0] kvs IH] using rev_ind; intros d k Hk.
  - destruct Hk.
  - rewrite map_app, in_app_iff in Hk. unfold store_all.
    rewrite fold_left_app. simpl. unfold store at 1. simpl.
    rewrite dict_get_set. destruct (String.eqb k0 k) eqn:E; [eauto|].
    apply IH. destruct Hk as [Hk|[Hk|[]]]; [exact Hk|].
    simpl in Hk. subst. rewrite String.eqb_refl in E. discriminate.
Qed.

(** ** [NetworkDevice]: one session *)

Section SessionFacts.

Context (env : Env).

Lemma sends_app (t1 t2 : list (Ev env)) : sends (t1 ++ t2) = sends t1 ++ sends t2.
Proof.
  induction t1 as [|ev t1 IH]; simpl; [reflexivity|].
  destruct ev; simpl; rewrite ?IH; reflexivity.
Qed.

(** Without a connection object [execute_command] raises at once and
    touches nothing. *)
Lemma execute_command_not_connected (self : NetworkDevice env) command w :
  connection self = None ->
  execute_command self command w = (Raise "Not connected to device", w, []).
Proof. intros H. unfold execute_command. rewrite H. reflexivity. Qed.

(** With a connection object the command is handed to the transport, and
    an exception of the transport is logged and raised again. *)
Lemma execute_command_connected (self : NetworkDevice env) c command w :
  connection self = Some c ->
  execute_command self command w =
  (fst (send_command env c command w), snd (send_command env c command w),
   Log INFO (Executing command)
   :: NetSend c command (fst (send_command env c command w))
   :: match fst (send_command env c command w) with
      | Ok _ => []
      | Raise e => [Log ERROR (CommandExecutionFailed e)]
      end).
Proof.
  intros H. unfold execute_command. rewrite H.
  unfold try_except, bind, emit, call, raise.
  destruct (send_command env c command w) as [[out|e] w1]; reflexivity.
Qed.

(** One round of the loop always stores some text under the command and
    never raises; on an open session the text is what the transport
    answered to this one command. *)
Lemma execute_commands_body_stores (self : NetworkDevice env) results command w :
  exists v w1 t1,
    execute_commands_body self results command w
    = (Ok (dict_set results command v), w1, t1)
    /\ forall c, connection self = Some c ->
         exists r, sends t1 = [(command, r)] /\ v = stored_text r.
Proof.
  unfold execute_commands_body.
  destruct (connection self) as [c|] eqn:Hc.
  - unfold try_except, bind. rewrite (execute_command_connected _ _ _ Hc).
    destruct (send_command env c command w) as [[out|e] w1]; simpl.
    + exists out, w1. eexists. split; [reflexivity|].
      intros c' _. exists (Ok out). split; reflexivity.
    + exists ("Error: " ++ e)%string, w1. eexists. split; [reflexivity|].
      intros c' _. exists (Raise e). split; reflexivity.
  - unfold try_except, bind.
    rewrite (execute_command_not_connected _ _ _ Hc). simpl.
    do 3 eexists. split; [reflexivity|]. intros c' H. discriminate.
Qed.

(** The loop as a whole: it returns the dictionary obtained by one
    assignment per submitted command, in order. *)
Lemma execute_commands_from_stores (self : NetworkDevice env) commands :
  forall results w,
  exists kvs w1 t,
    execute_commands_from self commands results w
    = (Ok (store_all results kvs), w1, t)
    /\ map fst kvs = commands
    /\ forall c, connection self = Some c ->
         kvs = map (fun cr => (fst cr, stored_text (snd cr))) (sends t).
Proof.
  induction commands as [|command rest IH]; intros results w.
  - exists [], w, []. repeat split; reflexivity.
  - simpl. unfold bind.
    destruct (execute_commands_body_stores self results command w)
      as (v & w1 & t1 & Hbody & Hsend).
    rewrite Hbody.
    destruct (IH (dict_set results command v) w1)
      as (kvs & w2 & t2 & Hrest & Hkeys & Hsends).
    rewrite Hrest.
    exists ((command, v) :: kvs), w2, (t1 ++ t2).
    split; [reflexivity|]. split; [simpl; congruence|].
    intros c Hc. rewrite sends_app.
    destruct (Hsend c Hc) as (r & Hr & Hv).
    rewrite Hr, (Hsends c Hc), Hv. reflexivity.
Qed.

End SessionFacts.

(** C6 (as amended): for every list of commands, [execute_commands]
    returns a dictionary with exactly one entry per distinct command
    string, ordered by first submission; it has at most as many entries as
    commands were submitted, and when no command string is repeated it has
    exactly one entry per submitted command, in submission order. *)
Theorem execute_commands_keys :
  forall (env : Env) (self : NetworkDevice env) (commands : list string)
         (w : World env),
  exists results w1 t,
    execute_commands self commands w = (Ok results, w1, t)
    /\ keys results = first_occurrences commands
    /\ List.length results <= List.length commands
    /\ (NoDup commands ->
        keys results = commands
        /\ List.length results = List.length commands).
Proof.
  intros env self commands w. unfold execute_commands.
  destruct (execute_commands_from_stores self commands [] w)
    as (kvs & w1 & t & Hrun & Hkeys & _).
  exists (store_all [] kvs), w1, t.
  assert (K : keys (store_all [] kvs) = first_occurrences commands).
  { rewrite keys_store_all, Hkeys. simpl. apply filter_all. reflexivity. }
  split; [exact Hrun|]. split; [exact K|]. split.
  - rewrite <- (length_map fst). fold (keys (store_all [] kvs)).
    rewrite K. apply first_occurrences_length.
  - intros Hnd. rewrite <- (length_map fst (store_all [] kvs)).
    fold (keys (store_all [] kvs)).
    rewrite K, (first_occurrences_NoDup Hnd). split; reflexivity.
Qed.

(** The batch of the quick check has four different commands and yields
    four entries in submission order. *)
Lemma execute_commands_keys_witness :
  exists results w1 t,
    execute_commands (attached healthy_lab "192.168.1.1" "192.168.1.1")
      ["show ip int brief"; "show ip ospf neighbor";
       "show version | include uptime"; "show processes cpu | include CPU"]
      power_on = (Ok results, w1, t)
    /\ keys results =
       ["show ip int brief"; "show ip ospf neighbor";
        "show version | include uptime"; "show processes cpu | include CPU"]
    /\ List.length results = 4.
Proof.
  destruct (execute_commands_keys
              (attached healthy_lab "192.168.1.1" "192.168.1.1")
              ["show ip int brief"; "show ip ospf neighbor";
               "show version | include uptime";
               "show processes cpu | include CPU"] power_on)
    as (results & w1 & t & Hrun & _ & _ & Hnd).
  exists results, w1, t. split; [exact Hrun|].
  apply Hnd. repeat constructor; simpl; intuition discriminate.
Defined.

(** C6 (as stated) fails: a batch that submits the same command twice
    gets one result back, not two. *)
Lemma execute_commands_merges_duplicates :
  let commands := ["show version"; "show version"] in
  exists w1 t,
    execute_commands (attached healthy_lab "192.168.1.1" "192.168.1.1")
      commands power_on
    = (Ok [("show version", "ok")], w1, t)
    /\ List.length [("show version", "ok")] <> List.length commands.
Proof.
  simpl. do 2 eexists. split; [reflexivity | discriminate].
Qed.

(** C1 (as amended): on an open session every command of the batch is
    handed to the device, in order, whatever happened to the commands
    before it, and [execute_commands] returns normally with an entry for
    every submitted command; when command [k] raised [e] and the same
    command string is not submitted again later in the batch, the returned
    entry of that command is the error description ["Error: " ++ e]. *)
Theorem execute_commands_contains_failure :
  forall (env : Env) (self : NetworkDevice env) (c : Conn env)
         (commands : list string) (w : World env)
         (k : nat) (cmd : string) (e : exn),
  connection self = Some c ->
  nth_error (sends (trace_of (execute_commands self commands w))) k
    = Some (cmd, Raise e) ->
  ~ In cmd (skipn (S k) commands) ->
  exists results,
    result_of (execute_commands self commands w) = Ok results
    /\ map fst (sends (trace_of (execute_commands self commands w))) = commands
    /\ dict_get results cmd = Some ("Error: " ++ e)%string
    /\ forall cmd', In cmd' commands ->
         exists v, dict_get results cmd' = Some v.
Proof.
  intros env self c commands w k cmd e Hc Hk Hlast.
  unfold execute_commands in *.
  destruct (execute_commands_from_stores self commands [] w)
    as (kvs & w1 & t & Hrun & Hkeys & Hsends).
  rewrite Hrun in *. unfold trace_of, result_of in *. cbn [fst snd] in *.
  specialize (Hsends c Hc).
  assert (Hcmds : map fst (sends t) = commands).
  { rewrite <- Hkeys, Hsends, map_map. reflexivity. }
  exists (store_all [] kvs). split; [reflexivity|]. split; [exact Hcmds|].
  split.
  - destruct (nth_error_split _ _ Hk) as (s1 & s2 & Hsplit & Hlen).
    rewrite Hsends, Hsplit, map_app. simpl.
    apply dict_get_store_all_last.
    intros Hin. apply Hlast.
    rewrite <- Hcmds, Hsplit, map_app. cbn [map fst].
    assert (Hk1 : S k = List.length (map fst s1 ++ [cmd]))
      by (rewrite length_app, length_map; simpl; lia).
    rewrite Hk1.
    replace (map fst s1 ++ cmd :: map fst s2)
      with ((map fst s1 ++ [cmd]) ++ map fst s2)
      by (rewrite <- app_assoc; reflexivity).
    rewrite skipn_app, skipn_all, Nat.sub_diag. simpl.
    rewrite map_map in Hin. exact Hin.
  - intros cmd' Hin. apply dict_get_store_all_some. rewrite Hkeys. exact Hin.
Qed.

(** The spec's own example: ["bogus-cmd"] is rejected in the middle of a
    batch, its entry holds the error and the command after it still runs. *)
Lemma execute_commands_contains_failure_witness :
  exists results,
    result_of (execute_commands
                 (attached picky_lab "192.168.1.1" "192.168.1.1")
                 ["show version"; "bogus-cmd"; "show ip route"] power_on)
    = Ok results
    /\ map fst (sends (trace_of
         (execute_commands
            (attached picky_lab "192.168.1.1" "192.168.1.1")
            ["show version"; "bogus-cmd"; "show ip route"] power_on)))
       = ["show version"; "bogus-cmd"; "show ip route"]
    /\ dict_get results "bogus-cmd" = Some "Error: invalid input"
    /\ forall cmd', In cmd' ["show version"; "bogus-cmd"; "show ip route"] ->
         exists v, dict_get results cmd' = Some v.
Proof.
  apply (@execute_commands_contains_failure picky_lab
           (attached picky_lab "192.168.1.1" "192.168.1.1")
           "192.168.1.1"
           ["show version"; "bogus-cmd"; "show ip route"] power_on
           1 "bogus-cmd" "invalid input").
  - reflexivity.
  - reflexivity.
  - simpl. intuition discriminate.
Defined.

(** C1 (as stated) fails: the first command of the batch times out, the
    same command is submitted again and answered, and the returned results
    hold no error description for the failed command. *)
Lemma execute_commands_repeat_hides_failure :
  let o := execute_commands
             (attached flaky_lab "192.168.1.1" "192.168.1.1")
             ["show version"; "show version"] power_on in
  nth_error (sends (trace_of o)) 0
    = Some ("show version", Raise "read timeout")
  /\ result_of o = Ok [("show version", "ok")]
  /\ forall results, result_of o = Ok results ->
       dict_get results "show version" <> Some "Error: read timeout".
Proof.
  simpl. split; [reflexivity|]. split; [reflexivity|].
  intros results H. injection H as <-. discriminate.
Qed.

(** ** [backup_all_devices]: one pass over the fleet *)

Section PassFacts.

Context (env : Env).

(** [connect] never raises: a transport error is logged and turned into
    [False], and the object keeps the connection it had. *)
Lemma connect_cases (self : NetworkDevice env) w :
  (exists c w1,
      ConnectHandler env (info self) w = (Ok c, w1)
      /\ connect self w
         = (Ok (true, {| info := info self; connection := Some c |}), w1,
            [Log INFO (Connecting (host (info self)));
             NetOpen (info self) (Ok c);
             Log INFO (Connected (host (info self)))]))
  \/ (exists x w1,
      ConnectHandler env (info self) w = (Raise x, w1)
      /\ connect self w
         = (Ok (false, self), w1,
            [Log INFO (Connecting (host (info self)));
             NetOpen (info self) (Raise x);
             Log ERROR (ConnectionFailed x)])).
Proof.
  unfold connect, try_except, bind, emit, call, ret.
  destruct (ConnectHandler env (info self) w) as [[c|x] w1].
  - left. exists c, w1. split; reflexivity.
  - right. exists x, w1. split; reflexivity.
Qed.

(** One round of the loop never raises, and it goes one of the six ways
    of [device_run]. *)
Lemma backup_element_run (e : element) w :
  exists w1 t, backup_element env e w = (Ok tt, w1, t) /\ device_run env e t.
Proof.
  unfold backup_element, backup_attempt, try_except.
  unfold bind at 1. unfold eval at 1.
  destruct (subscript (elem_credentials e) "username" cred_username) as [u|x];
    [|do 2 eexists; split; [reflexivity | eapply bad_credentials]].
  unfold bind at 1. unfold eval at 1.
  destruct (subscript (elem_credentials e) "password" cred_password) as [p|x];
    [|do 2 eexists; split; [reflexivity | eapply bad_credentials]].
  unfold bind at 1. unfold eval at 1.
  destruct (get_device_type (elem_credentials e)) as [dt|x];
    [|do 2 eexists; split; [reflexivity | eapply bad_credentials]].
  unfold bind at 1.
  set (device := create_device_connection env (ip_address e) u p dt 22 None).
  destruct (connect_cases device w) as [(c & w1 & _ & Hc)|(x & w1 & _ & Hc)];
    rewrite Hc; cbn [fst snd].
  2:{ do 2 eexists. split; [reflexivity|].
      eapply (@unreachable env e (info device)). reflexivity. }
  unfold bind at 1.
  rewrite (@execute_command_connected env
             {| info := info device; connection := Some c |}
             c "show running-config" w1 eq_refl).
  destruct (send_command env c "show running-config" w1)
    as [[config|x] w2];
    cbn [fst snd].
  2:{ do 2 eexists. split; [reflexivity|].
      eapply (@command_failed env e (info device)). reflexivity. }
  unfold bind at 1, read at 1. unfold bind at 1, call at 1.
  match goal with
  | |- context [insert_one env _ ?d w2] => set (doc := d)
  end.
  destruct (insert_one env "config_backups" doc w2) as [[[]|x] w3].
  2:{ do 2 eexists. split; [reflexivity|].
      eapply (@insert_failed env e (info device) c config doc);
        reflexivity. }
  unfold bind at 1, emit at 1. unfold disconnect. cbn [connection].
  unfold bind, call, emit.
  destruct (conn_disconnect env c w3) as [[[]|x] w4].
  - do 2 eexists. split; [reflexivity|].
    eapply (@backed_up env e (info device) c config doc);
      reflexivity.
  - do 2 eexists. split; [reflexivity|].
    eapply (@close_failed env e (info device) c config doc);
      reflexivity.
Qed.



End PassFacts.

(** ** The endpoint closes what it opens *)

Section EndpointFacts.

Context (env : Env).

Lemma execute_commands_body_trace (self : NetworkDevice env) results command w :
  forallb (@is_command_event (Conn env))
          (trace_of (execute_commands_body self results command w)) = true.
Proof.
  unfold execute_commands_body, try_except, bind, trace_of.
  destruct (connection self) as [c|] eqn:Hc.
  - rewrite (execute_command_connected _ _ _ Hc).
    destruct (send_command env c command w) as [[out|e] w1]; reflexivity.
  - rewrite (execute_command_not_connected _ _ _ Hc). reflexivity.
Qed.

Lemma execute_commands_from_trace (self : NetworkDevice env) commands :
  forall results w,
  forallb (@is_command_event (Conn env))
          (trace_of (execute_commands_from self commands results w)) = true.
Proof.
  induction commands as [|command rest IH]; intros results w.
  - reflexivity.
  - cbn [execute_commands_from]. unfold bind.
    pose proof (execute_commands_body_trace self results command w) as Hb.
    destruct (execute_commands_body_stores self results command w)
      as (v & w1 & t1 & Hbody & _).
    rewrite Hbody in *. specialize (IH (dict_set results command v) w1).
    destruct (execute_commands_from self rest (dict_set results command v) w1)
      as [[r w2] t2].
    unfold trace_of in *. cbn [snd] in *.
    rewrite forallb_app. apply andb_true_iff. split; assumption.
Qed.

(** X6: in [execute_multiple_commands] the [finally] block calls the
    transport's disconnect on the session that was opened, whatever the
    commands in between did. *)
Lemma execute_multiple_commands_closes (request : MultiCommandRequest) w :
  (exists i x,
      trace_of (execute_multiple_commands env request w)
      = [Log INFO (Connecting (host i)); NetOpen i (Raise x);
         Log ERROR (ConnectionFailed x)])
  \/ (exists i c body r tail,
      trace_of (execute_multiple_commands env request w)
      = [Log INFO (Connecting (host i)); NetOpen i (Ok c);
         Log INFO (Connected (host i))]
        ++ body ++ NetClose c r :: tail
      /\ forallb (@is_command_event (Conn env)) body = true).
Proof.
  remember (execute_multiple_commands env request w) as o eqn:Ho.
  unfold execute_multiple_commands in Ho.
  set (device := create_device_connection env _ _ _ _ _ _) in Ho.
  unfold bind at 1 in Ho.
  destruct (connect_cases device w) as [(c & w1 & _ & H)|(x & w1 & _ & H)];
    rewrite H in Ho; cbn [fst snd negb] in Ho.
  - right. exists (info device), c.
    pose proof (execute_commands_from_trace
                  {| info := info device; connection := Some c |}
                  (req_commands request) [] w1) as Hlog.
    destruct (execute_commands_from_stores
                {| info := info device; connection := Some c |}
                (req_commands request) [] w1)
      as (kvs & w2 & body & Hrun & _ & _).
    rewrite Hrun in Hlog. unfold trace_of in Hlog. cbn [snd] in Hlog.
    unfold try_finally, try_except, bind at 1 in Ho.
    unfold execute_commands in Ho. rewrite Hrun in Ho. cbn [ret] in Ho.
    unfold disconnect in Ho. cbn [connection] in Ho.
    unfold bind, call, emit in Ho.
    destruct (conn_disconnect env c w2) as [[[]|y] w3];
      subst o; unfold trace_of; cbn [snd]; rewrite app_nil_r.
    + exists body, (Ok tt), [Log INFO (Disconnected (host (info device)))].
      split; [reflexivity | exact Hlog].
    + exists body, (Raise y), []. split; [reflexivity | exact Hlog].
  - left. exists (info device), x. subst o. reflexivity.
Qed.

End EndpointFacts.

Section PassCounts.

Context (env : Env).










End PassCounts.







(** ** Counters along a trace *)

Section PeakFacts.

Variable E : Type.
Variable step : nat -> E -> nat.



(** The peak bounds the counter after every prefix of the trace. *)
Lemma prefix_le_peak (t : list E) : forall n m,
  fold_left step (firstn m t) n <= peak_from step n t.
Proof.
  induction t as [|ev t IH]; intros n m.
  - rewrite firstn_nil. simpl. lia.
  - destruct m as [|m]; simpl.
    + lia.
    + pose proof (IH (step n ev) m). lia.
Qed.



End PeakFacts.

Section SessionCounts.

Context (env : Env).



End SessionCounts.




(** C8: a round of [backup_all_devices] in which the command raises after
    the session was opened never calls [disconnect]: the pass ends, the
    failure line is printed, and the session is still open.  And a second
    [disconnect] on the same object calls the transport's disconnect
    again, since the first one leaves the [connection] attribute set. *)
Theorem backup_leaves_session_open :
  (let t := trace_of (backup_all_devices silent_lab power_on) in
   result_of (backup_all_devices silent_lab power_on) = Ok tt
   /\ printed t
      = [StartingBackup 1; FailedBackup "Router-01" "read timeout"]
   /\ dialed t = ["192.168.1.1"]
   /\ failed_opens t = 0
   /\ filter (fun ev => match ev with NetClose _ _ => true | _ => false end) t
      = []
   /\ open_sessions t = 1)
  /\ (let device := attached healthy_lab "192.168.1.1" "192.168.1.1" in
      net_calls (trace_of ((disconnect device ;; disconnect device) power_on))
      = [NetClose "192.168.1.1" (Ok tt);
         NetClose "192.168.1.1" (Ok tt)]).
Proof.
  split; [|reflexivity]. simpl. repeat split; reflexivity.
Qed.

(** On a handle whose [connect] succeeded, [execute_command] hands the
    command to the transport also after [disconnect] has returned, in any
    environment. *)
Lemma execute_command_on_closed_handle (env : Env)
    (fresh device : NetworkDevice env) (command : string) w w1 t1 w2 t2 :
  connect fresh w = (Ok (true, device), w1, t1) ->
  disconnect device w1 = (Ok tt, w2, t2) ->
  exists c r,
    connection device = Some c
    /\ sends (trace_of (execute_command device command w2)) = [(command, r)].
Proof.
  intros Hconnect _.
  destruct (connect_cases fresh w) as [(c & w' & _ & H)|(x & w' & _ & H)];
    rewrite H in Hconnect; [|discriminate].
  injection Hconnect as <- _ _.
  exists c, (fst (send_command env c command w2)).
  split; [reflexivity|].
  rewrite (@execute_command_connected env
             {| info := info fresh; connection := Some c |}
             c command w2 eq_refl).
  unfold trace_of. cbn [snd sends].
  destruct (fst (send_command env c command w2)); reflexivity.
Qed.

(** C7: on a handle that was connected and then closed, [execute_command]
    does not raise "Not connected to device": [disconnect] has left the
    [connection] attribute set, the guard passes and the command is sent
    over the closed connection, where the transport fails.  On a handle
    that was never connected the guard works. *)
Theorem execute_command_after_disconnect_sends :
  let fresh :=
    create_device_connection healthy_lab "192.168.1.1" "admin" "cisco123"
      "cisco_ios" 22 None in
  exists device w1 t1 w2 t2,
    connect fresh power_on = (Ok (true, device), w1, t1)
    /\ disconnect device w1 = (Ok tt, w2, t2)
    /\ net_calls t2 = [NetClose "192.168.1.1" (Ok tt)]
    /\ execute_command device "show version" w2
       = (Raise "Socket is closed", w2,
          [Log INFO (Executing "show version");
           NetSend "192.168.1.1" "show version" (Raise "Socket is closed");
           Log ERROR (CommandExecutionFailed "Socket is closed")])
    /\ execute_command fresh "show version" power_on
       = (Raise "Not connected to device", power_on, []).
Proof.
  simpl. do 5 eexists. repeat split; reflexivity.
Qed.

(** ** [scheduler]: the loop around the pass *)

Section SchedulerFacts.

Context (env : Env).







End SchedulerFacts.



(** The refresh timer of the dashboard page is no scheduler of passes and
    has no such guard: when the interval elapses while [loadData] is still
    pending, a second [loadData] is started. *)
Remark refresh_timer_overlaps :
  Frontend.loads_in_flight (Frontend.home_run [Frontend.IntervalElapsed]) = 2.
Proof. reflexivity. Qed.

(** ** [ConnectionManager.broadcast] *)

Section BroadcastFacts.

Variable W : Type.
Variable WebSocket : Type.
Variable Message : Type.
Variable send_json : WebSocket -> Message -> W -> result unit * W.

(** C5 (as amended): [broadcast] sends the message to the registered
    connections one after another, in registration order, awaiting each
    send.  When it returns normally, every registered connection received
    the message exactly once; when a send raises, the broadcast raises the
    same exception, the connections registered before the failing one have
    received the message, and no send is started for the ones after it.
    There is no buffer per subscriber and no Dropped marker. *)
Theorem broadcast_delivers_prefix :
  forall (active_connections : list WebSocket) (message : Message) (w : W),
  match result_of (broadcast send_json active_connections message w) with
  | Ok _ =>
      delivered (trace_of (broadcast send_json active_connections message w))
      = active_connections
      /\ addressed (trace_of (broadcast send_json active_connections message w))
         = active_connections
  | Raise x =>
      exists c rest,
        active_connections
        = delivered (trace_of (broadcast send_json active_connections message w))
          ++ c :: rest
        /\ addressed (trace_of (broadcast send_json active_connections message w))
           = delivered (trace_of (broadcast send_json active_connections message w))
             ++ [c]
        /\ In (SendJson c message (Raise x))
              (trace_of (broadcast send_json active_connections message w))
  end.
Proof.
  intros conns message. unfold result_of, trace_of.
  induction conns as [|c conns IH]; intros w.
  - simpl. split; reflexivity.
  - cbn [broadcast]. unfold bind, call.
    destruct (send_json c message w) as [[[]|x] w1].
    + specialize (IH w1).
      destruct (broadcast send_json conns message w1) as [[[[]|y] w2] t2];
        cbn [fst snd] in *.
      * destruct IH as [Hd Ha]. simpl. rewrite Hd, Ha. split; reflexivity.
      * destruct IH as (c' & rest & Hsplit & Ha & Hin).
        exists c', rest. simpl. rewrite Ha.
        split; [f_equal; exact Hsplit|]. split; [reflexivity|].
        right. exact Hin.
    + cbn [fst snd]. exists c, conns. simpl.
      split; [reflexivity|]. split; [reflexivity|]. left. reflexivity.
Qed.

End BroadcastFacts.

(** C5 (as stated) fails: three subscribers are registered and the second
    one has gone away; the broadcast raises at that socket and the third
    subscriber is never sent the event. *)
Lemma broadcast_stops_at_closed_socket :
  let o := broadcast (lab_send_json 1) [0; 1; 2] "alert" tt in
  result_of o = Raise "WebSocket is not connected"
  /\ delivered (trace_of o) = [0]
  /\ addressed (trace_of o) = [0; 1]
  /\ ~ In 2 (delivered (trace_of o)).
Proof.
  simpl. repeat split; try reflexivity. intros [H|[]]. discriminate.
Qed.

(** ** The dashboard *)

Section DashboardFacts.

Import Frontend.

Lemma filter_count_status (s : string) (elements : list js_object) :
  List.length (filter (fun e => strict_equals (get e "status") s) elements)
  = count_status s elements.
Proof.
  induction elements as [|e rest IH]; simpl; [reflexivity|].
  unfold status_of. destruct (get e "status"); simpl; try exact IH.
  destruct (String.eqb _ s); simpl; rewrite IH; reflexivity.
Qed.

Lemma count_partition (elements : list js_object) :
  count_status "active" elements + count_status "warning" elements
  + count_status "inactive" elements + count_other elements
  = List.length elements.
Proof.
  induction elements as [|e rest IH]; simpl; [reflexivity|].
  unfold categorised. destruct (status_of e) as [s|]; [|lia].
  destruct (String.eqb_spec s "active") as [->|Ha]; simpl; [lia|].
  destruct (String.eqb_spec s "warning") as [->|Hw]; simpl; [lia|].
  destruct (String.eqb_spec s "inactive") as [->|Hi]; simpl; lia.
Qed.

(** C10: for every list of elements the dashboard shows as Total the
    length of the list, and as Active, Warning and Inactive the number of
    elements whose status is exactly the string ['active'], ['warning'],
    ['inactive']; an element with any other status is counted in Total and
    in none of the three, so the three together are at most Total. *)
Theorem Dashboard_stats_counts :
  forall elements : list js_object,
  Dashboard_cards elements
  = [("Total Elements", List.length elements);
     ("Active", count_status "active" elements);
     ("Warning", count_status "warning" elements);
     ("Inactive", count_status "inactive" elements)]
  /\ active (Dashboard_stats elements) + warning (Dashboard_stats elements)
     + inactive (Dashboard_stats elements) + count_other elements
     = total (Dashboard_stats elements)
  /\ active (Dashboard_stats elements) + warning (Dashboard_stats elements)
     + inactive (Dashboard_stats elements)
     <= total (Dashboard_stats elements).
Proof.
  intros elements. unfold Dashboard_cards, Dashboard_stats. cbn [total active warning inactive].
  rewrite !filter_count_status.
  pose proof (count_partition elements). repeat split; lia.
Qed.

End DashboardFacts.

(** * Further properties of the code *)

(** ** [NetworkDevice]: connecting and running batches *)

Section MoreSessionFacts.

Context (env : Env).

Lemma opened_app (t1 t2 : list (Ev env)) :
  opened (t1 ++ t2) = opened t1 ++ opened t2.
Proof.
  induction t1 as [|ev t1 IH]; simpl; [reflexivity|].
  destruct ev as [| | ? [] | | |  |]; simpl; rewrite ?IH; reflexivity.
Qed.

Lemma closed_calls_app (t1 t2 : list (Ev env)) :
  closed_calls (t1 ++ t2) = closed_calls t1 ++ closed_calls t2.
Proof.
  induction t1 as [|ev t1 IH]; simpl; [reflexivity|].
  destruct ev; simpl; rewrite ?IH; reflexivity.
Qed.

(** A trace of command events opens and closes nothing. *)
Lemma command_events_open_nothing (t : list (Ev env)) :
  forallb (@is_command_event (Conn env)) t = true ->
  opened t = [] /\ closed_calls t = [].
Proof.
  induction t as [|ev t IH]; simpl; [split; reflexivity|].
  intros H. apply andb_true_iff in H. destruct H as [Hev Ht].
  destruct ev; simpl in *; try discriminate; exact (IH Ht).
Qed.

Lemma dict_get_store_all_answers (ss : list (string * result string)) :
  forall (d : dict string) (command : string),
  dict_get
    (store_all d (map (fun cr => (fst cr, stored_text (snd cr))) ss)) command
  = match last_answer command ss with
    | Some r => Some (stored_text r)
    | None => dict_get d command
    end.
Proof.
  induction ss as [|[c r] ss IH]; intros d command; simpl; [reflexivity|].
  unfold store_all in *. simpl. rewrite IH.
  destruct (last_answer command ss); [reflexivity|].
  unfold store. simpl. rewrite dict_get_set.
  destruct (String.eqb c command); reflexivity.
Qed.

Lemma execute_commands_from_not_connected (self : NetworkDevice env)
    (commands : list string) :
  connection self = None ->
  forall results w,
    execute_commands_from self commands results w
    = (Ok (store_all results
             (map (fun c => (c, "Error: Not connected to device")) commands)),
       w, []).
Proof.
  intros Hc. induction commands as [|command rest IH]; intros results w.
  - reflexivity.
  - cbn [execute_commands_from]. unfold bind, execute_commands_body.
    unfold try_except, bind.
    rewrite (execute_command_not_connected _ _ _ Hc). cbn [ret].
    rewrite IH. reflexivity.
Qed.

End MoreSessionFacts.

(** X1: [connect] never raises.  It calls [ConnectHandler] once, for the
    host of the object; when that succeeds it answers [True] and the
    object holds the new connection; when that raises it answers [False],
    writes the error to the log and leaves the object exactly as it was,
    so a connection the object held before is kept. *)
Theorem connect_reports_transport_outcome :
  forall (env : Env) (self : NetworkDevice env) (w : World env),
  exists ok self' t,
    connect self w
    = (Ok (ok, self'), snd (ConnectHandler env (info self) w), t)
    /\ info self' = info self
    /\ dialed t = [host (info self)]
    /\ match fst (ConnectHandler env (info self) w) with
       | Ok c => ok = true /\ connection self' = Some c
       | Raise x =>
           ok = false /\ self' = self
           /\ In (Log ERROR (ConnectionFailed x)) t
       end.
Proof.
  intros env self w.
  destruct (connect_cases self w) as [(c & w1 & Hh & H)|(x & w1 & Hh & H)];
    rewrite H, Hh; cbn [fst snd].
  - do 3 eexists. split; [reflexivity|]. repeat split; reflexivity.
  - do 3 eexists. split; [reflexivity|]. repeat split; try reflexivity.
    simpl. auto.
Qed.



(** X3: on an object without a connection (never connected, or every
    [connect] failed) [execute_commands] returns normally, touches neither
    the device nor the world, and stores the text
    ["Error: Not connected to device"] for every submitted command. *)
Theorem execute_commands_not_connected :
  forall (env : Env) (self : NetworkDevice env) (commands : list string)
         (w : World env),
  connection self = None ->
  exists results,
    execute_commands self commands w = (Ok results, w, [])
    /\ keys results = first_occurrences commands
    /\ forall command, In command commands ->
         dict_get results command = Some "Error: Not connected to device".
Proof.
  intros env self commands w Hc. unfold execute_commands.
  rewrite (execute_commands_from_not_connected _ commands Hc).
  eexists. split; [reflexivity|]. split.
  - rewrite keys_store_all, map_map. simpl. rewrite map_id.
    apply filter_all. reflexivity.
  - intros command Hin.
    induction commands as [|c rest IH] using rev_ind; [destruct Hin|].
    rewrite map_app. simpl. unfold store_all. rewrite fold_left_app. simpl.
    unfold store at 1. simpl. rewrite dict_get_set.
    destruct (String.eqb_spec c command) as [->|Hne]; [reflexivity|].
    apply in_app_iff in Hin. destruct Hin as [Hin|[Hin|[]]]; [|contradiction].
    exact (IH Hin).
Qed.

Lemma execute_commands_not_connected_witness :
  exists results,
    execute_commands
      (create_device_connection dark_lab "192.168.1.1" "admin" "cisco123"
         "cisco_ios" 22 None)
      ["show ip int brief"; "show version"] power_on
    = (Ok results, power_on, [])
    /\ keys results = first_occurrences ["show ip int brief"; "show version"]
    /\ forall command, In command ["show ip int brief"; "show version"] ->
         dict_get results command = Some "Error: Not connected to device".
Proof.
  apply (@execute_commands_not_connected dark_lab). reflexivity.
Defined.

(** X4: on an object with a connection, [execute_commands] hands every
    submitted command to the device, in order and as often as it was
    submitted (a repeated command is run again although it gets one
    entry), and it neither opens nor closes a connection. *)
Theorem execute_commands_sends_every_command :
  forall (env : Env) (self : NetworkDevice env) (c : Conn env)
         (commands : list string) (w : World env),
  connection self = Some c ->
  map fst (sends (trace_of (execute_commands self commands w))) = commands
  /\ opened (trace_of (execute_commands self commands w)) = []
  /\ closed_calls (trace_of (execute_commands self commands w)) = [].
Proof.
  intros env self c commands w Hc. unfold execute_commands.
  pose proof (execute_commands_from_trace self commands [] w) as Hlog.
  destruct (execute_commands_from_stores self commands [] w)
    as (kvs & w1 & t & Hrun & Hkeys & Hsends).
  rewrite Hrun in *. unfold trace_of in *. cbn [snd] in *.
  split.
  - rewrite <- Hkeys, (Hsends c Hc), map_map. reflexivity.
  - exact (@command_events_open_nothing env t Hlog).
Qed.

Lemma execute_commands_sends_every_command_witness :
  map fst (sends (trace_of
    (execute_commands (attached flaky_lab "192.168.1.1" "192.168.1.1")
       ["show version"; "show version"] power_on)))
  = ["show version"; "show version"]
  /\ opened (trace_of
       (execute_commands (attached flaky_lab "192.168.1.1" "192.168.1.1")
          ["show version"; "show version"] power_on)) = []
  /\ closed_calls (trace_of
       (execute_commands (attached flaky_lab "192.168.1.1" "192.168.1.1")
          ["show version"; "show version"] power_on)) = [].
Proof.
  apply (@execute_commands_sends_every_command flaky_lab
           (attached flaky_lab "192.168.1.1" "192.168.1.1") "192.168.1.1").
  reflexivity.
Defined.

(** X5: on an object with a connection, the dictionary returned by
    [execute_commands] holds, for every command string, the outcome of the
    last time that string was sent in the batch (its output, or
    ["Error: "] and the exception text), and no entry for a string that
    was not sent. *)
Theorem execute_commands_holds_last_answer :
  forall (env : Env) (self : NetworkDevice env) (c : Conn env)
         (commands : list string) (w : World env),
  connection self = Some c ->
  exists results,
    result_of (execute_commands self commands w) = Ok results
    /\ forall command,
         dict_get results command
         = option_map stored_text
             (last_answer command
                (sends (trace_of (execute_commands self commands w)))).
Proof.
  intros env self c commands w Hc. unfold execute_commands.
  destruct (execute_commands_from_stores self commands [] w)
    as (kvs & w1 & t & Hrun & _ & Hsends).
  rewrite Hrun. unfold result_of, trace_of. cbn [fst snd].
  eexists. split; [reflexivity|]. intros command.
  rewrite (Hsends c Hc), dict_get_store_all_answers.
  destruct (last_answer command (sends t)); reflexivity.
Qed.

Lemma execute_commands_holds_last_answer_witness :
  exists results,
    result_of (execute_commands (attached flaky_lab "192.168.1.1" "192.168.1.1")
                 ["show version"; "show version"] power_on) = Ok results
    /\ forall command,
         dict_get results command
         = option_map stored_text
             (last_answer command
                (sends (trace_of
                   (execute_commands
                      (attached flaky_lab "192.168.1.1" "192.168.1.1")
                      ["show version"; "show version"] power_on)))).
Proof.
  apply (@execute_commands_holds_last_answer flaky_lab
           (attached flaky_lab "192.168.1.1" "192.168.1.1") "192.168.1.1").
  reflexivity.
Defined.

(** ** The two command endpoints of [main.py] *)

Section MoreEndpointFacts.

Context (env : Env).

(** What [execute_multiple_commands] does once the connection is made:
    the batch runs, the session is closed, and only a raising disconnect
    turns the answer into an exception. *)
Lemma execute_multiple_commands_connected (request : MultiCommandRequest)
    w c w1 :
  let cr := req_credentials request in
  let device :=
    create_device_connection env (dc_host cr) (dc_username cr)
      (dc_password cr) (dc_device_type cr) (dc_port cr) (dc_secret cr) in
  ConnectHandler env (info device) w = (Ok c, w1) ->
  exists kvs w2 body,
    execute_commands_from {| info := info device; connection := Some c |}
      (req_commands request) [] w1
    = (Ok (store_all [] kvs), w2, body)
    /\ map fst kvs = req_commands request
    /\ kvs = map (fun cr => (fst cr, stored_text (snd cr))) (sends body)
    /\ forallb (@is_command_event (Conn env)) body = true
    /\ execute_multiple_commands env request w
       = (match fst (conn_disconnect env c w2) with
          | Ok _ => Ok {| resp_success := true;
                          resp_device := dc_host cr;
                          resp_results := store_all [] kvs |}
          | Raise y => Raise y
          end,
          snd (conn_disconnect env c w2),
          [Log INFO (Connecting (host (info device)));
           NetOpen (info device) (Ok c);
           Log INFO (Connected (host (info device)))]
          ++ body
          ++ NetClose c (fst (conn_disconnect env c w2))
             :: match fst (conn_disconnect env c w2) with
                | Ok _ => [Log INFO (Disconnected (host (info device)))]
                | Raise _ => []
                end).
Proof.
  intros cr device Hopen.
  pose proof (execute_commands_from_trace
                {| info := info device; connection := Some c |}
                (req_commands request) [] w1) as Hlog.
  destruct (execute_commands_from_stores
              {| info := info device; connection := Some c |}
              (req_commands request) [] w1)
    as (kvs & w2 & body & Hrun & Hkeys & Hsends).
  rewrite Hrun in Hlog. unfold trace_of in Hlog. cbn [snd] in Hlog.
  exists kvs, w2, body. split; [exact Hrun|]. split; [exact Hkeys|].
  split; [exact (Hsends c eq_refl)|]. split; [exact Hlog|].
  unfold execute_multiple_commands. fold cr. fold device.
  unfold bind at 1.
  destruct (connect_cases device w) as [(c' & w' & E & H)|(x & w' & E & H)];
    rewrite Hopen in E; [|discriminate].
  injection E as <- <-. rewrite H. cbn [fst snd negb].
  unfold try_finally, try_except, bind at 1.
  unfold execute_commands. rewrite Hrun. cbn [ret].
  unfold disconnect. cbn [connection]. unfold bind, call, emit.
  destruct (conn_disconnect env c w2) as [[[]|y] w3]; cbn [fst snd];
    rewrite app_nil_r; reflexivity.
Qed.

Lemma execute_multiple_commands_unreachable (request : MultiCommandRequest)
    w x w1 :
  let cr := req_credentials request in
  let device :=
    create_device_connection env (dc_host cr) (dc_username cr)
      (dc_password cr) (dc_device_type cr) (dc_port cr) (dc_secret cr) in
  ConnectHandler env (info device) w = (Raise x, w1) ->
  execute_multiple_commands env request w
  = (Raise (HTTPException_500
              (HTTPException_500 "Failed to connect to device")),
     w1,
     [Log INFO (Connecting (host (info device)));
      NetOpen (info device) (Raise x);
      Log ERROR (ConnectionFailed x)]).
Proof.
  intros cr device Hopen.
  unfold execute_multiple_commands. fold cr. fold device.
  unfold bind at 1.
  destruct (connect_cases device w) as [(c' & w' & E & H)|(x' & w' & E & H)];
    rewrite Hopen in E; [discriminate|].
  injection E as <- <-. rewrite H. reflexivity.
Qed.

(** [execute_device_command], spelled out by what the transport answers
    to the three calls. *)
Lemma execute_device_command_run (request : CommandRequest) w :
  let cr := creq_credentials request in
  let device :=
    create_device_connection env (dc_host cr) (dc_username cr)
      (dc_password cr) (dc_device_type cr) (dc_port cr) (dc_secret cr) in
  execute_device_command env request w
  = match ConnectHandler env (info device) w with
    | (Raise x, w1) =>
        (Raise (HTTPException_500
                  (HTTPException_500 "Failed to connect to device")),
         w1,
         [Log INFO (Connecting (host (info device)));
          NetOpen (info device) (Raise x);
          Log ERROR (ConnectionFailed x)])
    | (Ok c, w1) =>
        match send_command env c (creq_command request) w1 with
        | (r, w2) =>
            match conn_disconnect env c w2 with
            | (rc, w3) =>
                (match rc, r with
                 | Raise y, _ => Raise y
                 | Ok _, Ok out =>
                     Ok {| cresp_success := true;
                           cresp_command := creq_command request;
                           cresp_output := out;
                           cresp_device := dc_host cr |}
                 | Ok _, Raise e => Raise (HTTPException_500 e)
                 end,
                 w3,
                 [Log INFO (Connecting (host (info device)));
                  NetOpen (info device) (Ok c);
                  Log INFO (Connected (host (info device)));
                  Log INFO (Executing (creq_command request));
                  NetSend c (creq_command request) r]
                 ++ match r with
                    | Ok _ => []
                    | Raise e => [Log ERROR (CommandExecutionFailed e)]
                    end
                 ++ NetClose c rc
                    :: match rc with
                       | Ok _ => [Log INFO (Disconnected (host (info device)))]
                       | Raise _ => []
                       end)
            end
        end
    end.
Proof.
  intros cr device.
  unfold execute_device_command. fold cr. fold device.
  unfold bind at 1.
  destruct (connect_cases device w) as [(c & w1 & E & H)|(x & w1 & E & H)];
    rewrite H, E; cbn [fst snd negb]; [|reflexivity].
  unfold try_finally, try_except, bind at 1.
  rewrite (@execute_command_connected env
             {| info := info device; connection := Some c |}
             c (creq_command request) w1 eq_refl).
  unfold disconnect. cbn [connection]. unfold bind, call, emit, raise, ret.
  destruct (send_command env c (creq_command request) w1) as [[out|e] w2];
    cbn [fst snd];
    destruct (conn_disconnect env c w2) as [[[]|y] w3]; reflexivity.
Qed.

End MoreEndpointFacts.

(** X7: once [execute_multiple_commands] has connected, failing commands
    never fail the request: it answers [success: true] with the device's
    host and one entry per distinct command, every command having been
    sent, unless the disconnect in [finally] itself raises, which is then
    the exception of the request.  In both cases the transport's
    disconnect is called exactly for the connection that was opened. *)
Theorem execute_multiple_commands_reports_success :
  forall (env : Env) (request : MultiCommandRequest) (w : World env)
         (c : Conn env) (w1 : World env),
  ConnectHandler env
    (info (create_device_connection env
             (dc_host (req_credentials request))
             (dc_username (req_credentials request))
             (dc_password (req_credentials request))
             (dc_device_type (req_credentials request))
             (dc_port (req_credentials request))
             (dc_secret (req_credentials request)))) w = (Ok c, w1) ->
  opened (trace_of (execute_multiple_commands env request w)) = [c]
  /\ closed_calls (trace_of (execute_multiple_commands env request w)) = [c]
  /\ map fst (sends (trace_of (execute_multiple_commands env request w)))
     = req_commands request
  /\ match result_of (execute_multiple_commands env request w) with
     | Ok resp =>
         resp_success resp = true
         /\ resp_device resp = dc_host (req_credentials request)
         /\ keys (resp_results resp)
            = first_occurrences (req_commands request)
     | Raise y =>
         In (NetClose c (Raise y))
            (trace_of (execute_multiple_commands env request w))
     end.
Proof.
  intros env request w c w1 Hopen.
  destruct (@execute_multiple_commands_connected env request w c w1 Hopen)
    as (kvs & w2 & body & _ & Hkeys & Hsends & Hlog & ->).
  unfold trace_of, result_of. cbn [fst snd].
  destruct (@command_events_open_nothing env body Hlog) as [Ho Hc].
  rewrite !opened_app, !closed_calls_app, !sends_app, Ho, Hc.
  assert (Hs : map fst (sends body) = req_commands request).
  { rewrite <- Hkeys, Hsends, map_map. reflexivity. }
  destruct (fst (conn_disconnect env c w2)) as [[]|y]; simpl;
    rewrite app_nil_r; repeat split; try assumption.
  - rewrite keys_store_all, Hkeys. simpl. apply filter_all. reflexivity.
  - do 3 right. apply in_or_app. right. left. reflexivity.
Qed.

Lemma execute_multiple_commands_reports_success_witness :
  let request :=
    {| req_credentials := lab_credentials "192.168.1.1";
       req_commands := ["show version"; "bogus-cmd"] |} in
  opened (trace_of (execute_multiple_commands picky_lab request power_on))
  = ["192.168.1.1"]
  /\ closed_calls (trace_of (execute_multiple_commands picky_lab request power_on))
     = ["192.168.1.1"]
  /\ map fst (sends (trace_of (execute_multiple_commands picky_lab request power_on)))
     = req_commands request
  /\ match result_of (execute_multiple_commands picky_lab request power_on) with
     | Ok resp =>
         resp_success resp = true
         /\ resp_device resp = dc_host (req_credentials request)
         /\ keys (resp_results resp)
            = first_occurrences (req_commands request)
     | Raise y =>
         In (NetClose "192.168.1.1" (Raise y))
            (trace_of (execute_multiple_commands picky_lab request power_on))
     end.
Proof.
  intros request.
  apply (@execute_multiple_commands_reports_success picky_lab request power_on
           "192.168.1.1" power_on).
  reflexivity.
Defined.

(** X8: when the connection cannot be made, [execute_multiple_commands]
    raises an HTTP 500 exception, sends no command, calls no disconnect,
    and the transport's error is in the log. *)
Theorem execute_multiple_commands_connect_failure :
  forall (env : Env) (request : MultiCommandRequest) (w : World env)
         (x : exn) (w1 : World env),
  ConnectHandler env
    (info (create_device_connection env
             (dc_host (req_credentials request))
             (dc_username (req_credentials request))
             (dc_password (req_credentials request))
             (dc_device_type (req_credentials request))
             (dc_port (req_credentials request))
             (dc_secret (req_credentials request)))) w = (Raise x, w1) ->
  (exists detail,
      result_of (execute_multiple_commands env request w)
      = Raise (HTTPException_500 detail))
  /\ sends (trace_of (execute_multiple_commands env request w)) = []
  /\ opened (trace_of (execute_multiple_commands env request w)) = []
  /\ closed_calls (trace_of (execute_multiple_commands env request w)) = []
  /\ In (Log ERROR (ConnectionFailed x))
        (trace_of (execute_multiple_commands env request w)).
Proof.
  intros env request w x w1 Hopen.
  rewrite (@execute_multiple_commands_unreachable env request w x w1 Hopen).
  unfold result_of, trace_of. cbn [fst snd].
  split; [eexists; reflexivity|]. repeat split; try reflexivity.
  simpl. auto.
Qed.

Lemma execute_multiple_commands_connect_failure_witness :
  let request :=
    {| req_credentials := lab_credentials "192.168.1.1";
       req_commands := ["show version"] |} in
  (exists detail,
      result_of (execute_multiple_commands dark_lab request power_on)
      = Raise (HTTPException_500 detail))
  /\ sends (trace_of (execute_multiple_commands dark_lab request power_on)) = []
  /\ opened (trace_of (execute_multiple_commands dark_lab request power_on)) = []
  /\ closed_calls (trace_of (execute_multiple_commands dark_lab request power_on))
     = []
  /\ In (Log ERROR (ConnectionFailed "timed out"))
        (trace_of (execute_multiple_commands dark_lab request power_on)).
Proof.
  intros request.
  apply (@execute_multiple_commands_connect_failure dark_lab request power_on
           "timed out" power_on).
  reflexivity.
Defined.

(** X9: [execute_device_command] calls the transport's disconnect exactly
    for the connections it opened, on every path.  When it answers, the
    answer carries the command, the host and the output of the one send;
    and, unlike the batch endpoint, a command that fails makes the request
    fail; a failed connection makes it fail without any send. *)
Theorem execute_device_command_outcomes :
  forall (env : Env) (request : CommandRequest) (w : World env),
  closed_calls (trace_of (execute_device_command env request w))
  = opened (trace_of (execute_device_command env request w))
  /\ (forall resp,
        result_of (execute_device_command env request w) = Ok resp ->
        cresp_success resp = true
        /\ cresp_command resp = creq_command request
        /\ cresp_device resp = dc_host (creq_credentials request)
        /\ sends (trace_of (execute_device_command env request w))
           = [(creq_command request, Ok (cresp_output resp))])
  /\ (forall command x,
        In (command, Raise x)
           (sends (trace_of (execute_device_command env request w))) ->
        exists y, result_of (execute_device_command env request w) = Raise y)
  /\ (opened (trace_of (execute_device_command env request w)) = [] ->
      sends (trace_of (execute_device_command env request w)) = []
      /\ exists detail,
           result_of (execute_device_command env request w)
           = Raise (HTTPException_500 detail)).
Proof.
  intros env request w. rewrite execute_device_command_run.
  destruct (ConnectHandler env _ w) as [[c|x] w1].
  - destruct (send_command env c (creq_command request) w1) as [[out|e] w2];
      destruct (conn_disconnect env c w2) as [[[]|y] w3];
      unfold result_of, trace_of; cbn [fst snd];
      (split; [reflexivity|]); (split; [|split]);
      try (intros resp Hr; try discriminate; injection Hr as <-;
           repeat split; reflexivity);
      try (intros command x' Hin; simpl in Hin;
           try (eexists; reflexivity);
           destruct Hin as [Hin|[]]; discriminate);
      try (intros Ho; discriminate).
  - unfold result_of, trace_of. cbn [fst snd].
    split; [reflexivity|]. split; [intros resp Hr; discriminate|].
    split; [intros command x' []|].
    intros _. split; [reflexivity | eexists; reflexivity].
Qed.

(** ** More on [backup_all_devices] *)

Section MorePassFacts.

Context (env : Env).

(** A round for an element whose credentials cannot be read only prints
    the failure line. *)
Lemma backup_element_not_dialable (e : element) w :
  dialable e = false ->
  exists x, backup_element env e w = (Ok tt, w, [Print (FailedBackup (name e) x)]).
Proof.
  unfold dialable, backup_element, backup_attempt, try_except.
  unfold bind at 1. unfold eval at 1. unfold subscript at 1.
  destruct (elem_credentials e) as [| |[[u|] [p|] dt]]; intros H;
    try discriminate; eexists; reflexivity.
Qed.

(** A round for an element with user name and password, spelled out by
    what the outside world answers. *)
Lemma backup_element_dialable (e : element) w c0 u p :
  elem_credentials e = Creds c0 ->
  cred_username c0 = Some u -> cred_password c0 = Some p ->
  let dt := match cred_device_type c0 with
            | Some dt => dt
            | None => "cisco_ios"
            end in
  let i := info (create_device_connection env (ip_address e) u p dt 22 None) in
  backup_element env e w
  = match ConnectHandler env i w with
    | (Raise x, w1) =>
        (Ok tt, w1,
         [Log INFO (Connecting (ip_address e)); NetOpen i (Raise x);
          Log ERROR (ConnectionFailed x)])
    | (Ok c, w1) =>
        match send_command env c "show running-config" w1 with
        | (Raise x, w2) =>
            (Ok tt, w2,
             [Log INFO (Connecting (ip_address e)); NetOpen i (Ok c);
              Log INFO (Connected (ip_address e));
              Log INFO (Executing "show running-config");
              NetSend c "show running-config" (Raise x);
              Log ERROR (CommandExecutionFailed x);
              Print (FailedBackup (name e) x)])
        | (Ok config, w2) =>
            let doc :=
              {| element_id := elem_id e;
                 device_name := name e;
                 config_content := config;
                 backup_type := "running";
                 file_size := String.length config;
                 created_at := now env w2 |} in
            match insert_one env "config_backups" doc w2 with
            | (Raise x, w3) =>
                (Ok tt, w3,
                 [Log INFO (Connecting (ip_address e)); NetOpen i (Ok c);
                  Log INFO (Connected (ip_address e));
                  Log INFO (Executing "show running-config");
                  NetSend c "show running-config" (Ok config);
                  DbInsert "config_backups" doc (Raise x);
                  Print (FailedBackup (name e) x)])
            | (Ok _, w3) =>
                match conn_disconnect env c w3 with
                | (Ok _, w4) =>
                    (Ok tt, w4,
                     [Log INFO (Connecting (ip_address e)); NetOpen i (Ok c);
                      Log INFO (Connected (ip_address e));
                      Log INFO (Executing "show running-config");
                      NetSend c "show running-config" (Ok config);
                      DbInsert "config_backups" doc (Ok tt);
                      Print (BackedUp (name e));
                      NetClose c (Ok tt);
                      Log INFO (Disconnected (ip_address e))])
                | (Raise x, w4) =>
                    (Ok tt, w4,
                     [Log INFO (Connecting (ip_address e)); NetOpen i (Ok c);
                      Log INFO (Connected (ip_address e));
                      Log INFO (Executing "show running-config");
                      NetSend c "show running-config" (Ok config);
                      DbInsert "config_backups" doc (Ok tt);
                      Print (BackedUp (name e));
                      NetClose c (Raise x);
                      Print (FailedBackup (name e) x)])
                end
            end
        end
    end.
Proof.
  intros Hcr Hu Hp dt i. subst i.
  unfold backup_element, backup_attempt, try_except.
  unfold bind at 1. unfold eval at 1. unfold subscript at 1.
  rewrite Hcr, Hu.
  unfold bind at 1. unfold eval at 1. unfold subscript at 1. rewrite Hp.
  unfold bind at 1. unfold eval at 1. unfold get_device_type.
  replace (match cred_device_type c0 with
           | Some v => Ok v
           | None => Ok "cisco_ios"
           end) with (@Ok string dt)
    by (unfold dt; destruct (cred_device_type c0); reflexivity).
  unfold bind at 1.
  set (device := create_device_connection env (ip_address e) u p dt 22 None).
  destruct (connect_cases device w) as [(c & w1 & E & Hc)|(x & w1 & E & Hc)];
    rewrite Hc, E; cbn [fst snd]; [|reflexivity].
  unfold bind at 1.
  rewrite (@execute_command_connected env
             {| info := info device; connection := Some c |}
             c "show running-config" w1 eq_refl).
  destruct (send_command env c "show running-config" w1) as [[config|x] w2];
    cbn [fst snd]; [|reflexivity].
  unfold bind at 1, read at 1. unfold bind at 1, call at 1.
  destruct (insert_one env "config_backups" _ w2) as [[[]|x] w3];
    [|reflexivity].
  unfold bind at 1, emit at 1. unfold disconnect. cbn [connection].
  unfold bind, call, emit.
  destruct (conn_disconnect env c w3) as [[[]|x] w4]; reflexivity.
Qed.

(** Every round is tidy. *)
Lemma backup_element_tidy (e : element) w :
  tidy env e (trace_of (backup_element env e w)).
Proof.
  destruct (dialable e) eqn:Hd.
  - unfold dialable in Hd.
    destruct (elem_credentials e) as [| |c0] eqn:Hcr; try discriminate.
    destruct (cred_username c0) as [u|] eqn:Hu; try discriminate.
    destruct (cred_password c0) as [p|] eqn:Hp; try discriminate.
    rewrite (backup_element_dialable e w Hcr Hu Hp).
    assert (Hi : backup_info e
                   (info (create_device_connection env (ip_address e) u p
                            match cred_device_type c0 with
                            | Some dt => dt
                            | None => "cisco_ios"
                            end 22 None))).
    { repeat split. exists c0. repeat split; assumption. }
    unfold tidy, dialable. rewrite Hcr, Hu, Hp.
    destruct (ConnectHandler env _ w) as [[c|x] w1];
      [destruct (send_command env c "show running-config" w1)
         as [[config|x] w2];
       [destruct (insert_one env "config_backups" _ w2) as [[[]|x] w3];
        [destruct (conn_disconnect env c w3) as [[[]|x] w4]|]|]|];
      unfold trace_of; cbn [snd];
      (split; [reflexivity|]);
      (split; [intros i r Hin; simpl in Hin;
               repeat (destruct Hin as [Hin|Hin]; [try discriminate|]);
               try contradiction; injection Hin as <- _; exact Hi|]);
      (split; [reflexivity|]);
      (split; [|reflexivity]);
      intros col doc r Hin; simpl in Hin;
      repeat (destruct Hin as [Hin|Hin]; [try discriminate|]);
      try contradiction;
      injection Hin as <- <- _;
      (split; [reflexivity|]); (split; [repeat split|]);
      simpl; auto.
  - destruct (backup_element_not_dialable e w Hd) as [x ->].
    unfold tidy, trace_of. rewrite Hd. cbn [snd].
    split; [reflexivity|]. split; [intros i r [H|[]]; discriminate|].
    split; [reflexivity|]. split; [|reflexivity].
    intros col doc r [H|[]]. discriminate.
Qed.

End MorePassFacts.

Section MorePassLifting.

Context (env : Env).


Lemma stored_app (t1 t2 : list (Ev env)) :
  stored (t1 ++ t2) = stored t1 ++ stored t2.
Proof.
  induction t1 as [|ev t1 IH]; simpl; [reflexivity|].
  destruct ev as [| | | | | ? ? [] |]; simpl; rewrite ?IH; reflexivity.
Qed.

Lemma backed_up_names_app (t1 t2 : list (Ev env)) :
  backed_up_names (t1 ++ t2) = backed_up_names t1 ++ backed_up_names t2.
Proof.
  induction t1 as [|ev t1 IH]; simpl; [reflexivity|].
  destruct ev as [| [] | | | | |]; simpl; rewrite ?IH; reflexivity.
Qed.

Lemma backup_each_tidy (elements : list element) : forall w,
  exists segments,
    trace_of (backup_each env elements w) = List.concat segments
    /\ Forall2 (tidy env) elements segments.
Proof.
  induction elements as [|e rest IH]; intros w.
  - exists []. split; [reflexivity | constructor].
  - cbn [backup_each]. unfold bind.
    pose proof (backup_element_tidy env e w) as Ht.
    destruct (backup_element_run env e w) as (w1 & t & Hrun & _).
    rewrite Hrun in *. unfold trace_of in Ht. cbn [snd] in Ht.
    destruct (IH w1) as (segments & Hrest & Hall).
    destruct (backup_each env rest w1) as [[r w2] t2].
    unfold trace_of in *. cbn [snd] in *. subst t2.
    exists (t :: segments). split; [reflexivity | constructor; assumption].
Qed.

(** The trace of a pass: nothing when the query raises, else the start
    line and one tidy segment per attempted device. *)
Lemma backup_all_devices_tidy w :
  exists segments,
    Forall2 (tidy env) (attempted env w) segments
    /\ trace_of (backup_all_devices env w)
       = match fst (find_by_status env "active" w) with
         | Ok _ =>
             Print (StartingBackup (List.length (attempted env w)))
             :: List.concat segments
         | Raise _ => []
         end.
Proof.
  unfold attempted, backup_all_devices, bind, quiet, emit.
  destruct (find_by_status env "active" w) as [[found|x] w1]; cbn [fst].
  - destruct (backup_each_tidy (filter has_credentials_key found) w1)
      as (segments & Hrun & Hall).
    destruct (backup_each env (filter has_credentials_key found) w1)
      as [[r w2] t2].
    unfold trace_of in *. cbn [snd] in *. subst t2.
    exists segments. split; [exact Hall | reflexivity].
  - exists []. split; [constructor | reflexivity].
Qed.


Lemma tidy_segments_opens (elements : list element) segments :
  Forall2 (tidy env) elements segments ->
  forall i r, In (NetOpen i r) (List.concat segments) ->
    exists e, In e elements /\ backup_info e i.
Proof.
  induction 1 as [|e t elements segments Ht _ IH]; simpl; intros i r Hin;
    [destruct Hin|].
  apply in_app_iff in Hin. destruct Hin as [Hin|Hin].
  - exists e. split; [left; reflexivity|].
    destruct Ht as (_ & Ho & _). exact (Ho i r Hin).
  - destruct (IH i r Hin) as (e' & He' & Hi). exists e'. auto.
Qed.

Lemma tidy_segments_sends (elements : list element) segments :
  Forall2 (tidy env) elements segments ->
  map fst (sends (List.concat segments))
  = map (fun _ => "show running-config") (opened (List.concat segments)).
Proof.
  induction 1 as [|e t elements segments Ht _ IH]; simpl; [reflexivity|].
  rewrite sends_app, opened_app, !map_app, IH.
  destruct Ht as (_ & _ & -> & _). reflexivity.
Qed.

Lemma tidy_segments_docs (elements : list element) segments :
  Forall2 (tidy env) elements segments ->
  forall col doc r, In (DbInsert col doc r) (List.concat segments) ->
    col = "config_backups"
    /\ (exists e, In e elements /\ backup_doc e doc)
    /\ In ("show running-config", Ok (config_content doc))
          (sends (List.concat segments)).
Proof.
  induction 1 as [|e t elements segments Ht _ IH]; simpl;
    intros col doc r Hin; [destruct Hin|].
  rewrite sends_app. apply in_app_iff in Hin. destruct Hin as [Hin|Hin].
  - destruct Ht as (_ & _ & _ & Hd & _).
    destruct (Hd col doc r Hin) as (Hc & Hdoc & Hs).
    split; [exact Hc|]. split; [exists e; auto|].
    apply in_or_app. left. exact Hs.
  - destruct (IH col doc r Hin) as (Hc & (e' & He' & Hdoc) & Hs).
    split; [exact Hc|]. split; [exists e'; auto|].
    apply in_or_app. right. exact Hs.
Qed.

Lemma tidy_segments_stored (elements : list element) segments :
  Forall2 (tidy env) elements segments ->
  map device_name (stored (List.concat segments))
  = backed_up_names (List.concat segments).
Proof.
  induction 1 as [|e t elements segments Ht _ IH]; simpl; [reflexivity|].
  rewrite stored_app, backed_up_names_app, map_app, IH.
  destruct Ht as (_ & _ & _ & _ & ->). reflexivity.
Qed.

End MorePassLifting.


(** X11: every connection of a backup pass is made to the address of an
    attempted element with the user name and password of its credentials,
    with their device type or ["cisco_ios"] when they have none, on port 22
    and without an enable secret. *)
Theorem backup_connection_parameters :
  forall (env : Env) (w : World env) (i : device_info)
         (r : result (Conn env)),
  In (NetOpen i r) (trace_of (backup_all_devices env w)) ->
  exists e, In e (attempted env w) /\ backup_info e i.
Proof.
  intros env w i r.
  destruct (backup_all_devices_tidy env w) as (segments & Hall & ->).
  destruct (fst (find_by_status env "active" w)) as [found|x].
  - intros [Hin|Hin]; [discriminate|].
    exact (tidy_segments_opens Hall _ _ Hin).
  - intros [].
Qed.

Lemma backup_connection_parameters_witness :
  exists e,
    In e (attempted healthy_lab power_on)
    /\ backup_info e
         (info (create_device_connection healthy_lab "192.168.1.2" "admin"
                  "cisco123" "cisco_ios" 22 None)).
Proof.
  apply (@backup_connection_parameters healthy_lab power_on _
           (Ok "192.168.1.2")).
  vm_compute. intuition.
Defined.

(** X12: a backup pass sends exactly one command on every connection it
    opens, ["show running-config"], and no other command. *)
Theorem backup_sends_only_running_config :
  forall (env : Env) (w : World env),
  map fst (sends (trace_of (backup_all_devices env w)))
  = map (fun _ => "show running-config")
        (opened (trace_of (backup_all_devices env w))).
Proof.
  intros env w.
  destruct (backup_all_devices_tidy env w) as (segments & Hall & ->).
  destruct (fst (find_by_status env "active" w)) as [found|x].
  - exact (tidy_segments_sends Hall).
  - reflexivity.
Qed.

(** X13: every document a backup pass writes goes to [config_backups],
    carries the id and the name of an attempted element and the type
    ["running"], its [file_size] is the length of its [config_content],
    and that content is what a device answered to
    ["show running-config"] in this pass. *)
Theorem backup_documents_well_formed :
  forall (env : Env) (w : World env) (col : string) (doc : backup)
         (r : result unit),
  In (DbInsert col doc r) (trace_of (backup_all_devices env w)) ->
  col = "config_backups"
  /\ (exists e, In e (attempted env w) /\ backup_doc e doc)
  /\ In ("show running-config", Ok (config_content doc))
        (sends (trace_of (backup_all_devices env w))).
Proof.
  intros env w col doc r.
  destruct (backup_all_devices_tidy env w) as (segments & Hall & ->).
  destruct (fst (find_by_status env "active" w)) as [found|x].
  - intros [Hin|Hin]; [discriminate|].
    exact (tidy_segments_docs Hall _ _ _ Hin).
  - intros [].
Qed.

Lemma backup_documents_well_formed_witness :
  let doc :=
    {| element_id := "Router-01"; device_name := "Router-01";
       config_content := "ok"; backup_type := "running"; file_size := 2;
       created_at := 1%N |} in
  "config_backups" = "config_backups"
  /\ (exists e, In e (attempted healthy_lab power_on) /\ backup_doc e doc)
  /\ In ("show running-config", Ok (config_content doc))
        (sends (trace_of (backup_all_devices healthy_lab power_on))).
Proof.
  intros doc.
  apply (@backup_documents_well_formed healthy_lab power_on
           "config_backups" doc (Ok tt)).
  vm_compute. intuition.
Defined.

(** X14: a backup pass prints a success line exactly for the backups the
    database accepted: the device names of the stored documents are the
    names in the success lines, in order. *)
Theorem backup_success_line_iff_stored :
  forall (env : Env) (w : World env),
  map device_name (stored (trace_of (backup_all_devices env w)))
  = backed_up_names (trace_of (backup_all_devices env w)).
Proof.
  intros env w.
  destruct (backup_all_devices_tidy env w) as (segments & Hall & ->).
  destruct (fst (find_by_status env "active" w)) as [found|x].
  - exact (tidy_segments_stored Hall).
  - reflexivity.
Qed.

(** ** More on [scheduler] *)


(** ** [quick_device_check] *)

Section QuickCheckFacts.

Context (env : Env).
Variable find_one : string -> World env -> result (option element) * World env.
Variable insert_command_output :
  metric_doc -> World env -> result unit * World env.

Abbreviation quick_check := (quick_device_check env find_one insert_command_output).
Abbreviation store := (store_metrics env insert_command_output).

Lemma device_events_app (t1 t2 : list (check_event env)) :
  device_events (t1 ++ t2) = device_events t1 ++ device_events t2.
Proof.
  induction t1 as [|[ev|doc r] t1 IH]; simpl; rewrite ?IH; reflexivity.
Qed.


Lemma device_events_lifted (t : list (Ev env)) :
  device_events (map (@Device env) t) = t.
Proof. induction t as [|ev t IH]; simpl; rewrite ?IH; reflexivity. Qed.


(** The loop over [outputs.items()]: it writes the entries in order and
    stops at the first write the database refuses. *)
Lemma store_metrics_run (element_id : string) (items : dict string) :
  forall w,
  device_events (trace_of (store element_id items w)) = []
  /\ (forall doc, In doc (metrics (trace_of (store element_id items w))) ->
        m_element_id doc = element_id /\ metric_type doc = "command_output")
  /\ (exists n,
        map (fun d => (m_command d, m_output d))
            (metrics (trace_of (store element_id items w)))
        = firstn n items)
  /\ match result_of (store element_id items w) with
     | Ok _ =>
         map (fun d => (m_command d, m_output d))
             (metrics (trace_of (store element_id items w)))
         = items
     | Raise x =>
         exists doc,
           In (MetricInsert env doc (Raise x))
              (trace_of (store element_id items w))
     end.
Proof.
  induction items as [|[command output] rest IH]; intros w.
  - simpl. repeat split; try reflexivity; try contradiction.
    exists 0. reflexivity.
  - cbn [store_metrics]. unfold bind, read, call.
    destruct (insert_command_output _ w) as [[[]|x] w1].
    + specialize (IH w1).
      destruct (store element_id rest w1) as [[r w2] t2].
      unfold trace_of, result_of in *. cbn [fst snd] in *.
      destruct IH as (Hd & Hm & (n & Hn) & Hr).
      split; [exact Hd|]. split.
      * intros doc [<-|Hin]; [split; reflexivity | exact (Hm doc Hin)].
      * split.
        -- exists (S n). simpl. rewrite Hn. reflexivity.
        -- destruct r as [[]|y].
           ++ simpl. rewrite Hr. reflexivity.
           ++ destruct Hr as (doc & Hin). exists doc. right. exact Hin.
    + unfold trace_of, result_of. cbn [fst snd].
      split; [reflexivity|]. split.
      * intros doc [<-|[]]. split; reflexivity.
      * split; [exists 1; reflexivity|].
        eexists. left. reflexivity.
Qed.

(** [quick_device_check] once the element is found, its credentials are
    readable and the connection is made. *)
Lemma quick_check_connected (element_id : string) w e w0 device c w1 :
  find_one element_id w = (Ok (Some e), w0) ->
  has_credentials_key e = true ->
  quick_check_device env e = Ok device ->
  ConnectHandler env (info device) w0 = (Ok c, w1) ->
  exists outputs w2 body,
    execute_commands {| info := info device; connection := Some c |}
      quick_commands w1 = (Ok outputs, w2, body)
    /\ keys outputs = quick_commands
    /\ forallb (@is_command_event (Conn env)) body = true
    /\ quick_check element_id w
       = match store element_id outputs w2 with
         | (rm, w3, tm) =>
             match conn_disconnect env c w3 with
             | (rc, w4) =>
                 (match rc, rm with
                  | Raise y, _ => Raise y
                  | Ok _, Ok _ =>
                      Ok {| qc_success := true;
                            qc_element_id := element_id;
                            qc_device := ip_address e;
                            qc_results := outputs |}
                  | Ok _, Raise x => Raise (HTTPException_500 x)
                  end,
                  w4,
                  map (@Device env)
                    ([Log INFO (Connecting (host (info device)));
                      NetOpen (info device) (Ok c);
                      Log INFO (Connected (host (info device)))] ++ body)
                  ++ tm
                  ++ map (@Device env)
                       (NetClose c rc
                        :: match rc with
                           | Ok _ =>
                               [Log INFO (Disconnected (host (info device)))]
                           | Raise _ => []
                           end))
             end
         end.
Proof.
  intros Hfind Hkey Hdev Hopen.
  pose proof (execute_commands_from_trace
                {| info := info device; connection := Some c |}
                quick_commands [] w1) as Hlog.
  destruct (execute_commands_from_stores
              {| info := info device; connection := Some c |}
              quick_commands [] w1)
    as (kvs & w2 & body & Hrun & Hkeys & _).
  rewrite Hrun in Hlog. unfold trace_of in Hlog. cbn [snd] in Hlog.
  set (outputs := store_all [] kvs) in *.
  exists outputs, w2, body. split; [exact Hrun|].
  split; [unfold outputs; rewrite keys_store_all, Hkeys; reflexivity|].
  split; [exact Hlog|].
  unfold quick_device_check. unfold bind at 1, quiet. rewrite Hfind.
  rewrite Hkey, Hdev. cbn [negb].
  unfold bind at 1, lift at 1.
  destruct (connect_cases device w0) as [(c' & w' & E & H)|(x & w' & E & H)];
    rewrite Hopen in E; [|discriminate].
  injection E as <- <-. rewrite H. cbn [fst snd negb].
  unfold try_finally, try_except, bind at 1, lift at 1.
  unfold execute_commands. rewrite Hrun.
  unfold bind at 1.
  destruct (store element_id outputs w2) as [[rm w3] tm].
  unfold lift, disconnect. cbn [connection]. unfold bind, call, emit, raise, ret.
  destruct rm as [[]|x]; cbn beta iota;
    destruct (conn_disconnect env c w3) as [[[]|y] w4]; cbn [fst snd map];
    rewrite ?app_nil_r, ?map_app, <- ?app_assoc; reflexivity.
Qed.

End QuickCheckFacts.

Section QuickCheckCases.

Context (env : Env).
Variable find_one : string -> World env -> result (option element) * World env.
Variable insert_command_output :
  metric_doc -> World env -> result unit * World env.

Abbreviation quick_check' := (quick_device_check env find_one insert_command_output).

(** The object made from the element's credentials has no connection
    yet. *)
Lemma quick_check_device_fresh (e : element) (device : NetworkDevice env) :
  quick_check_device env e = Ok device -> connection device = None.
Proof.
  unfold quick_check_device.
  destruct (subscript _ "username" _); [|discriminate].
  destruct (subscript _ "password" _); [|discriminate].
  destruct (get_device_type _); [|discriminate].
  intros H. injection H as <-. reflexivity.
Qed.

(** [quick_device_check] on the paths that never reach the commands. *)
Lemma quick_check_unconnected (element_id : string) w :
  quick_check' element_id w
  = match find_one element_id w with
    | (Raise x, w0) => (Raise x, w0, [])
    | (Ok None, w0) => (Raise (HTTPException_404 "Element not found"), w0, [])
    | (Ok (Some e), w0) =>
        if has_credentials_key e
        then
          match quick_check_device env e with
          | Raise x => (Raise (HTTPException_500 x), w0, [])
          | Ok device =>
              match ConnectHandler env (info device) w0 with
              | (Raise x, w1) =>
                  (Raise (HTTPException_500
                            (HTTPException_500 "Failed to connect to device")),
                   w1,
                   map (@Device env)
                     [Log INFO (Connecting (host (info device)));
                      NetOpen (info device) (Raise x);
                      Log ERROR (ConnectionFailed x)])
              | (Ok _, _) => quick_check' element_id w
              end
          end
        else
          (Raise (HTTPException_400 "No credentials stored for this element"),
           w0, [])
    end.
Proof.
  destruct (find_one element_id w) as [[[e|]|x] w0] eqn:Hfind;
    try (unfold quick_device_check, bind, quiet; rewrite Hfind; reflexivity).
  destruct (has_credentials_key e) eqn:Hkey;
    [|unfold quick_device_check, bind, quiet; rewrite Hfind, Hkey; reflexivity].
  destruct (quick_check_device env e) as [device|x] eqn:Hdev;
    [|unfold quick_device_check, bind, quiet; rewrite Hfind, Hkey, Hdev;
      reflexivity].
  destruct (ConnectHandler env (info device) w0) as [[c|x] w1] eqn:Hopen;
    [reflexivity|].
  unfold quick_device_check. unfold bind at 1, quiet.
  rewrite Hfind, Hkey, Hdev. cbn [negb].
  unfold bind at 1, lift at 1.
  destruct (connect_cases device w0) as [(c' & w' & E & H)|(x' & w' & E & H)];
    rewrite Hopen in E; [discriminate|].
  injection E as <- <-. rewrite H. cbn [fst snd negb].
  unfold try_finally, try_except, raise, lift, disconnect.
  rewrite (quick_check_device_fresh e Hdev). reflexivity.
Qed.

(** The credentials of an element that is not dialable cannot be read. *)
Lemma quick_check_device_unreadable (e : element) :
  dialable e = false -> exists x, quick_check_device env e = Raise x.
Proof.
  unfold dialable, quick_check_device, subscript.
  destruct (elem_credentials e) as [| |[[u|] [p|] dt]]; intros H;
    try discriminate; eexists; reflexivity.
Qed.

End QuickCheckCases.

(** X16: [quick_device_check] turns away a request before any device is
    contacted and before anything is written: an unknown element is a 404,
    an element without a ["credentials"] key a 400, and an element whose
    credentials are [None] or lack the user name or the password a 500;
    an exception of the lookup itself passes through. *)
Theorem quick_device_check_rejects_early :
  forall (env : Env)
         (find_one : string -> World env -> result (option element) * World env)
         (insert_command_output :
            metric_doc -> World env -> result unit * World env)
         (element_id : string) (w : World env),
  match fst (find_one element_id w) with
  | Raise x =>
      quick_device_check env find_one insert_command_output element_id w
      = (Raise x, snd (find_one element_id w), [])
  | Ok None =>
      quick_device_check env find_one insert_command_output element_id w
      = (Raise (HTTPException_404 "Element not found"),
         snd (find_one element_id w), [])
  | Ok (Some e) =>
      if has_credentials_key e
      then
        if dialable e then True
        else
          exists x,
            quick_device_check env find_one insert_command_output element_id w
            = (Raise (HTTPException_500 x), snd (find_one element_id w), [])
      else
        quick_device_check env find_one insert_command_output element_id w
        = (Raise (HTTPException_400 "No credentials stored for this element"),
           snd (find_one element_id w), [])
  end.
Proof.
  intros env find_one ins element_id w.
  rewrite quick_check_unconnected.
  destruct (find_one element_id w) as [[[e|]|x] w0]; cbn [fst snd];
    try reflexivity.
  destruct (has_credentials_key e); [|reflexivity].
  destruct (dialable e) eqn:Hd; [exact I|].
  destruct (quick_check_device_unreadable env e Hd) as [x ->].
  exists x. reflexivity.
Qed.

(** X17: on every path [quick_device_check] calls the transport's
    disconnect exactly for the connection it opened, also when a command
    fails or the database refuses a metric. *)
Theorem quick_device_check_closes_session :
  forall (env : Env)
         (find_one : string -> World env -> result (option element) * World env)
         (insert_command_output :
            metric_doc -> World env -> result unit * World env)
         (element_id : string) (w : World env),
  closed_calls
    (device_events
       (trace_of
          (quick_device_check env find_one insert_command_output element_id w)))
  = opened
      (device_events
         (trace_of
            (quick_device_check env find_one insert_command_output element_id w))).
Proof.
  intros env find_one ins element_id w.
  rewrite quick_check_unconnected.
  destruct (find_one element_id w) as [[[e|]|x] w0] eqn:Hfind;
    try reflexivity.
  destruct (has_credentials_key e) eqn:Hkey; [|reflexivity].
  destruct (quick_check_device env e) as [device|x] eqn:Hdev; [|reflexivity].
  destruct (ConnectHandler env (info device) w0) as [[c|x] w1] eqn:Hopen;
    [|reflexivity].
  destruct (quick_check_connected find_one ins element_id w
              Hfind Hkey Hdev Hopen)
    as (outputs & w2 & body & _ & _ & Hlog & ->).
  pose proof (@store_metrics_run env ins element_id outputs w2) as (Hd & _).
  destruct (store_metrics env ins element_id outputs w2) as [[rm w3] tm].
  destruct (conn_disconnect env c w3) as [rc w4].
  unfold trace_of in *. cbn [snd] in *.
  destruct (@command_events_open_nothing env body Hlog) as [Ho Hc].
  rewrite !device_events_app, !device_events_lifted, Hd.
  rewrite !closed_calls_app, !opened_app, Ho, Hc.
  destruct rc; reflexivity.
Qed.


(** ** The table, the alert panel and the page *)

Section ComponentFacts.

Import Frontend.
Import Components.

Lemma green_iff_active (v : js_value) :
  String.eqb (getStatusColor v) "bg-green-100 text-green-800"
  = strict_equals v "active".
Proof.
  unfold getStatusColor. destruct v as [| | b | n | s]; try reflexivity.
  simpl. destruct (String.eqb_spec s "active") as [->|_]; [reflexivity|].
  destruct (String.eqb s "warning"); [reflexivity|].
  destruct (String.eqb s "inactive"); reflexivity.
Qed.

Lemma yellow_iff_warning (v : js_value) :
  String.eqb (getStatusColor v) "bg-yellow-100 text-yellow-800"
  = strict_equals v "warning".
Proof.
  unfold getStatusColor. destruct v as [| | b | n | s]; try reflexivity.
  simpl. destruct (String.eqb_spec s "active") as [->|_]; [reflexivity|].
  destruct (String.eqb s "warning"); [reflexivity|].
  destruct (String.eqb s "inactive"); reflexivity.
Qed.

Lemma red_iff_inactive (v : js_value) :
  String.eqb (getStatusColor v) "bg-red-100 text-red-800"
  = strict_equals v "inactive".
Proof.
  unfold getStatusColor. destruct v as [| | b | n | s]; try reflexivity.
  simpl. destruct (String.eqb_spec s "active") as [->|_]; [reflexivity|].
  destruct (String.eqb_spec s "warning") as [->|_]; [reflexivity|].
  destruct (String.eqb s "inactive"); reflexivity.
Qed.

Lemma gray_iff_other (e : js_object) :
  String.eqb (getStatusColor (get e "status")) "bg-gray-100 text-gray-800"
  = negb (categorised e).
Proof.
  unfold getStatusColor, categorised, status_of.
  destruct (get e "status") as [| | b | n | s]; try reflexivity.
  simpl. destruct (String.eqb_spec s "active") as [->|_]; [reflexivity|].
  destruct (String.eqb_spec s "warning") as [->|_]; [reflexivity|].
  destruct (String.eqb s "inactive"); reflexivity.
Qed.

Lemma count_other_filter (elements : list js_object) :
  count_other elements
  = List.length (filter (fun e => negb (categorised e)) elements).
Proof.
  induction elements as [|e rest IH]; simpl; [reflexivity|].
  destruct (categorised e); simpl; rewrite IH; reflexivity.
Qed.

Lemma badge_filter (class : string) (elements : list js_object) :
  List.length
    (filter (fun r => String.eqb (row_badge_class r) class)
            (rows (ElementList elements)))
  = List.length
      (filter (fun e => String.eqb (getStatusColor (get e "status")) class)
              elements).
Proof.
  simpl. induction elements as [|e rest IH]; simpl; [reflexivity|].
  destruct (String.eqb _ class); simpl; rewrite IH; reflexivity.
Qed.

(** X19: the table and the dashboard agree.  The number of green, yellow
    and red status badges in the element table equals the Active, Warning
    and Inactive count of the dashboard for the same list, and the gray
    badges are exactly the elements the dashboard counts in no
    category. *)
Theorem status_badges_match_dashboard :
  forall elements : list js_object,
  let badges class :=
    List.length
      (filter (fun r => String.eqb (row_badge_class r) class)
              (rows (ElementList elements))) in
  badges "bg-green-100 text-green-800" = active (Dashboard_stats elements)
  /\ badges "bg-yellow-100 text-yellow-800" = warning (Dashboard_stats elements)
  /\ badges "bg-red-100 text-red-800" = inactive (Dashboard_stats elements)
  /\ badges "bg-gray-100 text-gray-800" = count_other elements.
Proof.
  intros elements badges. unfold badges. rewrite !badge_filter.
  unfold Dashboard_stats. cbn [active warning inactive].
  rewrite count_other_filter.
  repeat split; f_equal; apply filter_ext; intros e.
  - apply green_iff_active.
  - apply yellow_iff_warning.
  - apply red_iff_inactive.
  - apply gray_iff_other.
Qed.

(** X20: the element table has one row per element, in order, shows the
    notice "No network elements found" exactly when it has no row, and
    never shows an empty location: a missing, null or empty location is
    shown as "N/A". *)
Theorem ElementList_rows_and_location :
  forall elements : list js_object,
  map row_key (rows (ElementList elements))
  = map (fun e => get e "_id") elements
  /\ (none_found (ElementList elements) = true
      <-> rows (ElementList elements) = [])
  /\ (forall r, In r (rows (ElementList elements)) ->
        truthy (row_location r) = true)
  /\ (forall e, In e elements -> truthy (get e "location") = false ->
        In (JsString "N/A") (map row_location (rows (ElementList elements)))).
Proof.
  intros elements. simpl. split; [rewrite map_map; reflexivity|].
  split; [destruct elements; simpl; split; intros H; try reflexivity;
          discriminate|].
  split.
  - intros r Hin. apply in_map_iff in Hin. destruct Hin as (e & <- & _).
    simpl. unfold js_or. destruct (truthy (get e "location")) eqn:E;
      [exact E | reflexivity].
  - intros e Hin Hf. rewrite map_map. apply in_map_iff. exists e.
    split; [|exact Hin]. simpl. unfold js_or. rewrite Hf. reflexivity.
Qed.

Lemma filter_partition_length {A} (f : A -> bool) (l : list A) :
  List.length (filter f l) + List.length (filter (fun x => negb (f x)) l)
  = List.length l.
Proof.
  induction l as [|a l IH]; simpl; [reflexivity|].
  destruct (f a); simpl; lia.
Qed.

(** X21: the alert panel shows a card for every alert whose [resolved] is
    not a true value, in order: the number in its header is the number of
    cards, it says "No active alerts" exactly when there is none, an alert
    without a [resolved] property is shown as active, and the cards and
    the alerts with a true [resolved] add up to all alerts. *)
Theorem AlertPanel_shows_unresolved :
  forall alerts : list js_object,
  header_count (AlertPanel alerts) = List.length (cards (AlertPanel alerts))
  /\ (no_active_alerts (AlertPanel alerts) = true
      <-> cards (AlertPanel alerts) = [])
  /\ List.length (cards (AlertPanel alerts))
     + List.length (filter (fun a => truthy (get a "resolved")) alerts)
     = List.length alerts
  /\ (forall a, In a alerts -> get a "resolved" = JsUndefined ->
        In (AlertPanel_card a) (cards (AlertPanel alerts))).
Proof.
  intros alerts. unfold AlertPanel. cbn [header_count cards no_active_alerts].
  rewrite length_map. split; [reflexivity|]. split.
  - destruct (unresolvedAlerts alerts); simpl; split; intros H;
      try reflexivity; discriminate.
  - split.
    + unfold unresolvedAlerts.
      pose proof (filter_partition_length
                    (fun a => truthy (get a "resolved")) alerts). lia.
    + intros a Hin Hr. apply in_map. unfold unresolvedAlerts.
      apply filter_In. split; [exact Hin|]. rewrite Hr. reflexivity.
Qed.

End ComponentFacts.

Section PageFacts.

Import Frontend.
Import Components.

Variable W : Type.
Variable axios : request -> W -> result response_body * W.


(** X23: [loadData] never throws and always ends the loading state.  It
    always sends both requests, for the elements and for the alerts,
    without parameters.  When both succeed the page shows their [data]
    (an empty list when [data] is missing); when either fails, the page
    keeps the elements and the alerts it had: it never updates one
    without the other. *)
Theorem loadData_updates_both_or_neither :
  forall (st : page_state) (w : W),
  exists st' w' t,
    loadData axios st w = (Ok st', w', t)
    /\ st_loading st' = false
    /\ requests t = [GET "/api/elements" []; GET "/api/alerts" []]
    /\ match fst (axios (GET "/api/elements" []) w),
             fst (axios (GET "/api/alerts" [])
                    (snd (axios (GET "/api/elements" []) w))) with
       | Ok b1, Ok b2 =>
           st_elements st' = data_or_empty b1
           /\ st_alerts st' = data_or_empty b2
       | _, _ =>
           st_elements st' = st_elements st /\ st_alerts st' = st_alerts st
       end.
Proof.
  intros st w.
  unfold loadData, try_except, bind, promise_all2, fetchElements, fetchAlerts,
    call, emit, ret.
  destruct (axios (GET "/api/elements" []) w) as [[b1|x1] w1]; cbn [fst snd];
    destruct (axios (GET "/api/alerts" []) w1) as [[b2|x2] w2]; cbn [fst snd];
    do 3 eexists; (split; [reflexivity|]); repeat split; reflexivity.
Qed.

End PageFacts.

Section HealthAndSearch.

Import Components.



Lemma includes_empty (s : string) : includes s "" = true.
Proof. destruct s; reflexivity. Qed.

(** X25: with an empty search term the search box hides nothing: every
    element is listed, in order. *)
Theorem empty_search_lists_everything :
  forall (toLowerCase : string -> string) (elements : list listed),
  toLowerCase "" = "" ->
  filteredElements toLowerCase "" elements = elements.
Proof.
  intros toLowerCase elements Hlow. unfold filteredElements.
  apply filter_all. intros e _. rewrite Hlow, includes_empty. reflexivity.
Qed.

Lemma empty_search_lists_everything_witness :
  filteredElements lower ""
    [{| l_name := "Router-01"; l_ip_address := "192.168.1.1";
        l_type := "Router" |};
     {| l_name := "Switch-07"; l_ip_address := "192.168.1.7";
        l_type := "Switch" |}]
  = [{| l_name := "Router-01"; l_ip_address := "192.168.1.1";
        l_type := "Router" |};
     {| l_name := "Switch-07"; l_ip_address := "192.168.1.7";
        l_type := "Switch" |}].
Proof.
  apply empty_search_lists_everything. reflexivity.
Defined.

End HealthAndSearch.

Section TimerFacts.

Import Frontend.

Lemma after_unmount_no_new_load (evs : list browser_event) :
  forall st, timer_armed st = false ->
    timer_armed (fold_left home_step evs st) = false
    /\ loads_in_flight (fold_left home_step evs st) <= loads_in_flight st.
Proof.
  induction evs as [|ev evs IH]; intros st Hoff; simpl.
  - split; [exact Hoff | lia].
  - destruct ev; simpl.
    + rewrite Hoff. exact (IH st Hoff).
    + destruct (IH {| loads_in_flight := pred (loads_in_flight st);
                      timer_armed := timer_armed st |} Hoff) as [H1 H2].
      split; [exact H1|]. simpl in H2. lia.
    + exact (IH {| loads_in_flight := loads_in_flight st;
                   timer_armed := false |} eq_refl).
Qed.

(** X26: the refresh timer of the page.  Every time the interval elapses
    while the page is mounted a further [loadData] is started, whether or
    not the earlier ones have settled, so [n] firings without a settled
    load leave [n + 1] loads pending; once the cleanup of the effect has
    run, no later firing starts a load. *)
Theorem refresh_timer_piles_up_until_unmount :
  (forall n,
      loads_in_flight (home_run (repeat IntervalElapsed n)) = S n)
  /\ (forall before after,
        loads_in_flight (home_run (before ++ Unmounted :: after))
        <= loads_in_flight (home_run before)).
Proof.
  split.
  - intros n. unfold home_run.
    assert (H : forall k st, timer_armed st = true ->
              loads_in_flight (fold_left home_step (repeat IntervalElapsed k) st)
              = k + loads_in_flight st).
    { induction k as [|k IH]; intros st Hon; simpl; [reflexivity|].
      rewrite Hon, IH by reflexivity. simpl. lia. }
    rewrite H by reflexivity. simpl. lia.
  - intros before after. unfold home_run. rewrite fold_left_app. simpl.
    destruct (after_unmount_no_new_load after
                {| loads_in_flight :=
                     loads_in_flight (fold_left home_step before mounted);
                   timer_armed := false |} eq_refl) as [_ H].
    exact H.
Qed.

End TimerFacts.
